(** * The file provider of terraform-provider-customcrud (examples/file-python)

    A shallow embedding of [src/file_provider.py] and the properties of its
    four handlers.

    What is modelled, and how:
    - Python [str] values are Rocq strings; the text codec of the files is
      taken as the identity, so a file holds the text written to it.
    - The value returned by [json.loads] is a [json] tree; [print(json.dumps v)]
      appends the document [v] to the standard output, which is kept as the
      list of documents written so far.
    - The POSIX file system is a finite map from absolute paths (lists of
      component names, the empty list being the root) to nodes, a node being a
      regular file or a directory. Path resolution walks the components one
      by one, as the kernel does. Symbolic links, permission bits and length
      limits are outside the model.
    - Python exceptions are values of [exn]; a handler is a computation in a
      state-and-exception monad over the file system and the standard output.
      An exception leaves the effects done before it in place. *)

From stdpp Require Import base option list strings gmap fin_maps.
From Stdlib Require Import ZArith Ascii String.

Set Warnings "-register-all".

Open Scope string_scope.
Open Scope list_scope.

(** ** Text *)

Definition sep : ascii := "/"%char.
Definition nul : ascii := "000"%char.
Definition CR : ascii := "013"%char.
Definition LF : ascii := "010"%char.

(** [s.split('/')] *)
Fixpoint split_sep (s : string) : list string :=
  match s with
  | EmptyString => [EmptyString]
  | String c r =>
      if decide (c = sep) then EmptyString :: split_sep r
      else match split_sep r with
           | x :: xs => String c x :: xs
           | [] => [String c EmptyString]
           end
  end.

(** ['/'.join(l)] *)
Fixpoint join_sep (l : list string) : string :=
  match l with
  | [] => EmptyString
  | [x] => x
  | x :: xs => x +:+ String sep (join_sep xs)
  end.

(** [c in s] for a character [c] *)
Fixpoint has_char (c : ascii) (s : string) : bool :=
  match s with
  | EmptyString => false
  | String a r => if decide (a = c) then true else has_char c r
  end.

(** Reading in text mode with [newline=None]: every ["\r\n"] and every lone
    ["\r"] comes back as ["\n"] (universal newlines). *)
Fixpoint universal_newlines (s : string) : string :=
  match s with
  | EmptyString => EmptyString
  | String a r =>
      if decide (a = CR) then
        match r with
        | String b r' => if decide (b = LF) then universal_newlines r
                         else String LF (universal_newlines r)
        | EmptyString => String LF EmptyString
        end
      else String a (universal_newlines r)
  end.

(** ** JSON values and Python exceptions *)

Inductive json : Type :=
  | JNull
  | JBool (b : bool)
  | JNum (n : Z)
  | JStr (s : string)
  | JArr (l : list json)
  | JObj (kvs : list (string * json)).

Inductive exn : Type :=
  | TypeError
  | AttributeError
  | ValueError
  | FileNotFoundError
  | FileExistsError
  | IsADirectoryError
  | NotADirectoryError
  | SystemExit (code : Z).

#[global] Instance exn_eq_dec : EqDecision exn.
Proof. solve_decision. Defined.

(** The items of a dict, looked up by key. *)
Fixpoint assoc (k : string) (kvs : list (string * json)) : option json :=
  match kvs with
  | [] => None
  | (k', v) :: r => if decide (k' = k) then Some v else assoc k r
  end.

(** [d.get(k, default)]: only a dict has the method. *)
Definition dict_get (d : json) (k : string) (default : json) : exn + json :=
  match d with
  | JObj kvs => inr (match assoc k kvs with Some v => v | None => default end)
  | _ => inl AttributeError
  end.

(** ** pathlib: pure paths *)

(** A parsed POSIX path: the root (empty, ["/"] or ["//"]) and the components
    that follow it. *)
Record PurePath : Type := { root : string; tail : list string }.

(** [posixpath.splitroot]: one leading slash is the root, exactly two are kept
    as they are, three or more count as one. *)
Definition splitroot (p : string) : string * string :=
  match p with
  | String c1 r1 =>
      if decide (c1 = sep) then
        match r1 with
        | String c2 r2 =>
            if decide (c2 = sep) then
              match r2 with
              | String c3 _ => if decide (c3 = sep) then ("/", r1) else ("//", r2)
              | EmptyString => ("//", r2)
              end
            else ("/", r1)
        | EmptyString => ("/", r1)
        end
      else ("", p)
  | EmptyString => ("", p)
  end.

(** The components pathlib keeps: [x for x in rel.split('/') if x and x != '.'] *)
Definition keep_part (x : string) : bool :=
  negb (bool_decide (x = "")) && negb (bool_decide (x = ".")).

(** [Path(s)] for a string [s] *)
Definition parse_path (s : string) : PurePath :=
  let '(r, rel) := splitroot s in
  {| root := r; tail := filter (λ x, keep_part x = true) (split_sep rel) |}.

(** [str(p)] *)
Definition py_str (p : PurePath) : string :=
  if decide (root p = "") then
    match tail p with
    | [] => "."
    | _ => join_sep (tail p)
    end
  else root p +:+ join_sep (tail p).

(** [Path(v)] for a JSON value: anything but a string is a [TypeError]. *)
Definition Path (v : json) : exn + PurePath :=
  match v with
  | JStr s => inr (parse_path s)
  | _ => inl TypeError
  end.

(** ** The file system *)

Inductive node : Type :=
  | File (text : string)
  | Dir.

#[global] Instance node_eq_dec : EqDecision node.
Proof. solve_decision. Defined.

(** What the process inherits from its host: the working directory, the
    directory [tempfile.gettempdir()] answers (absolute, given by its
    components), the bound [tempfile.TMP_MAX] on the names tried, and the
    random names [tempfile._RandomNameSequence] yields, in order. *)
Record env : Type := {
  cwd : list string;
  tempdir : list string;
  TMP_MAX : nat;
  rand_name : nat → string
}.

(** One step of path resolution from the directory [cur]. *)
Definition enter (cur : list string) (c : string) : list string :=
  if decide (c = "..") then removelast cur else cur ++ [c].

(** Resolution of the components [comps] from [cur]: the node walked through
    must be a directory at every step. *)
Fixpoint walk (fs : gmap (list string) node) (cur : list string)
    (comps : list string) : exn + list string :=
  match comps with
  | [] => inr cur
  | c :: rest =>
      match fs !! cur with
      | Some Dir => walk fs (enter cur c) rest
      | Some (File _) => inl NotADirectoryError
      | None => inl FileNotFoundError
      end
  end.

(** A path with a NUL character never reaches the kernel: Python raises
    [ValueError] when it converts the path. *)
Definition embedded_null (p : PurePath) : bool :=
  existsb (has_char nul) (tail p).

(** The absolute path a [PurePath] resolves to. *)
Definition resolve (e : env) (fs : gmap (list string) node) (p : PurePath)
    : exn + list string :=
  if embedded_null p then inl ValueError
  else walk fs (if decide (root p = "") then cwd e else []) (tail p).

(** [os.stat] *)
Definition os_stat (e : env) (fs : gmap (list string) node) (p : PurePath)
    : exn + node :=
  match resolve e fs p with
  | inl err => inl err
  | inr k => match fs !! k with
             | Some n => inr n
             | None => inl FileNotFoundError
             end
  end.

(** The last component names a new entry (it is not [..]). *)
Definition names_entry (p : PurePath) : bool :=
  match last (tail p) with
  | Some c => negb (bool_decide (c = ".."))
  | None => false
  end.

(** [open(p, 'w')] followed by the write and the close: the file is created
    when it is absent, and cut to nothing before the text goes in. *)
Definition os_write (e : env) (fs : gmap (list string) node) (p : PurePath)
    (text : string) : exn + gmap (list string) node :=
  match resolve e fs p with
  | inl err => inl err
  | inr k =>
      match fs !! k with
      | Some Dir => inl IsADirectoryError
      | Some (File _) => inr (<[k := File text]> fs)
      | None => if names_entry p then inr (<[k := File text]> fs)
                else inl FileNotFoundError
      end
  end.

(** [open(p, 'r')] and [read()] in text mode. *)
Definition os_read (e : env) (fs : gmap (list string) node) (p : PurePath)
    : exn + string :=
  match resolve e fs p with
  | inl err => inl err
  | inr k =>
      match fs !! k with
      | Some Dir => inl IsADirectoryError
      | Some (File t) => inr (universal_newlines t)
      | None => inl FileNotFoundError
      end
  end.

(** [os.unlink] *)
Definition os_unlink (e : env) (fs : gmap (list string) node) (p : PurePath)
    : exn + gmap (list string) node :=
  match resolve e fs p with
  | inl err => inl err
  | inr k =>
      match fs !! k with
      | Some Dir => inl IsADirectoryError
      | Some (File _) => inr (delete k fs)
      | None => inl FileNotFoundError
      end
  end.

(** [os.open(p, O_RDWR | O_CREAT | O_EXCL)]: creates the file, empty, and
    fails when anything is there already. *)
Definition os_open_excl (e : env) (fs : gmap (list string) node) (p : PurePath)
    : exn + gmap (list string) node :=
  match resolve e fs p with
  | inl err => inl err
  | inr k =>
      match fs !! k with
      | Some _ => inl FileExistsError
      | None => if names_entry p then inr (<[k := File ""]> fs)
                else inl FileNotFoundError
      end
  end.

(** ** The process: file system, standard output, exceptions *)

Record world : Type := {
  fs : gmap (list string) node;
  out : list json
}.

Definition M (A : Type) : Type := world → (exn + A) * world.

#[global] Instance M_ret : MRet M := λ A a w, (inr a, w).

#[global] Instance M_bind : MBind M := λ A B f m w,
  match m w with
  | (inl err, w') => (inl err, w')
  | (inr a, w') => f a w'
  end.

Definition raise {A : Type} (err : exn) : M A := λ w, (inl err, w).

(** A pure step that may raise. *)
Definition lift {A : Type} (r : exn + A) : M A := λ w, (r, w).

(** A system call: it reads the file system and may replace it. *)
Definition syscall (f : gmap (list string) node → exn + gmap (list string) node)
    : M unit := λ w,
  match f (fs w) with
  | inl err => (inl err, w)
  | inr fs' => (inr tt, {| fs := fs'; out := out w |})
  end.

(** A system call that only looks. *)
Definition query {A : Type} (f : gmap (list string) node → exn + A) : M A :=
  λ w, (f (fs w), w).

(** [print(json.dumps(v))] *)
Definition print (v : json) : M unit := λ w,
  (inr tt, {| fs := fs w; out := out w ++ [v] |}).

(** [sys.exit(n)] *)
Definition sys_exit {A : Type} (n : Z) : M A := raise (SystemExit n).

(** ** pathlib: concrete paths *)

(** [Path.exists]: a failed [stat] means "no" when nothing is there
    ([ENOENT], [ENOTDIR]) or the path cannot be converted; any other error
    is raised. *)
Definition exists_ (e : env) (p : PurePath) : M bool :=
  query (λ fs, match os_stat e fs p with
               | inr _ => inr true
               | inl FileNotFoundError | inl NotADirectoryError
               | inl ValueError => inr false
               | inl err => inl err
               end).

(** [Path.read_text] *)
Definition read_text (e : env) (p : PurePath) : M string :=
  query (λ fs, os_read e fs p).

(** [Path.write_text]: the type of the data is checked before the file is
    opened. *)
Definition write_text (e : env) (p : PurePath) (data : json) : M unit :=
  match data with
  | JStr text => syscall (λ fs, os_write e fs p text)
  | _ => raise TypeError
  end.

(** [Path.unlink(missing_ok=True)]: only [FileNotFoundError] is swallowed. *)
Definition unlink_missing_ok (e : env) (p : PurePath) : M unit :=
  syscall (λ fs, match os_unlink e fs p with
                 | inl FileNotFoundError => inr fs
                 | r => r
                 end).

(** ** tempfile *)

(** The name of an absolute path given by its components. *)
Definition abs_str (k : list string) : string := String sep (join_sep k).

(** [os.path.join(dir, "tmp" + name)] for the [i]-th random name. *)
Definition candidate (e : env) (i : nat) : string :=
  abs_str (tempdir e ++ ["tmp" +:+ rand_name e i]).

(** The loop of [tempfile._mkstemp_inner]: [n] names are still to be tried,
    the next one is the [i]-th. *)
Fixpoint mkstemp_inner (e : env) (n i : nat) (fs : gmap (list string) node)
    : exn + (string * gmap (list string) node) :=
  match n with
  | O => inl FileExistsError
  | S n' =>
      let file := candidate e i in
      match os_open_excl e fs (parse_path file) with
      | inl FileExistsError => mkstemp_inner e n' (S i) fs
      | inl err => inl err
      | inr fs' => inr (file, fs')
      end
  end.

(** [tempfile.NamedTemporaryFile(delete=False)], as far as the file system
    sees it; the result is [tmp.name]. *)
Definition NamedTemporaryFile (e : env) : M string := λ w,
  match mkstemp_inner e (TMP_MAX e) 0 (fs w) with
  | inl err => (inl err, w)
  | inr (name, fs') => (inr name, {| fs := fs'; out := out w |})
  end.

(** ** The handlers of [file_provider.py] *)

Definition handle_create (e : env) (data : json) : M unit :=
  input ← lift (dict_get data "input" (JObj []));
  content ← lift (dict_get input "content" (JStr ""));
  name ← NamedTemporaryFile e;
  tmp_path ← lift (Path (JStr name));
  _ ← write_text e tmp_path content;
  print (JObj [("id", JStr (py_str tmp_path)); ("content", content)]).

Definition handle_read (e : env) (data : json) : M unit :=
  id ← lift (dict_get data "id" JNull);
  path ← lift (Path id);
  found ← exists_ e path;
  if negb found then sys_exit 22
  else
    text ← read_text e path;
    print (JObj [("id", JStr (py_str path)); ("content", JStr text)]).

Definition handle_update (e : env) (data : json) : M unit :=
  id ← lift (dict_get data "id" JNull);
  path ← lift (Path id);
  input ← lift (dict_get data "input" (JObj []));
  content ← lift (dict_get input "content" (JStr ""));
  _ ← write_text e path content;
  print (JObj [("id", JStr (py_str path)); ("content", content)]).

Definition handle_delete (e : env) (data : json) : M unit :=
  id ← lift (dict_get data "id" JNull);
  path ← lift (Path id);
  unlink_missing_ok e path.

(** The choices of [--action]. *)
Inductive action : Type := ActCreate | ActRead | ActUpdate | ActDelete.

(** [main], after click has checked the action and [json.loads] has parsed
    the standard input into [data]. *)
Definition main (e : env) (a : action) (data : json) : M unit :=
  match a with
  | ActCreate => handle_create e data
  | ActRead => handle_read e data
  | ActUpdate => handle_update e data
  | ActDelete => handle_delete e data
  end.

(** What the caller of the process observes. *)
Record outcome : Type := {
  exit_code : Z;
  stdout : list json;
  disk : gmap (list string) node
}.

(** One invocation on the file system [fs0]: exit code 0 on a normal return,
    the code of [sys.exit], and 1 for any other exception. *)
Definition invoke (e : env) (a : action) (data : json)
    (fs0 : gmap (list string) node) : outcome :=
  let '(r, w) := main e a data {| fs := fs0; out := [] |} in
  {| exit_code := match r with
                  | inr _ => 0
                  | inl (SystemExit n) => n
                  | inl _ => 1
                  end;
     stdout := out w;
     disk := fs w |}.

(** ** Several creates at once *)

(** Where a process running [handle_create] stands between two system
    calls: in the loop of [_mkstemp_inner] with [n] names left to try, the
    next being the [i]-th; with its temporary file made, before
    [write_text]; with the text written, before [print]; or at its end. *)
Inductive stage : Type :=
  | Trying (content : json) (n i : nat)
  | Opened (content : json) (tmp_path : PurePath)
  | Written (content : json) (tmp_path : PurePath)
  | Returned (tmp_path : PurePath) (content : json)
  | Raised (err : exn).

(** The process as it starts: the content is taken from the request. *)
Definition start (e : env) (data : json) : stage :=
  match dict_get data "input" (JObj []) with
  | inl err => Raised err
  | inr input =>
      match dict_get input "content" (JStr "") with
      | inl err => Raised err
      | inr content => Trying content (TMP_MAX e) 0
      end
  end.

(** The next system call of the process, on the file system as it is then. *)
Definition step (e : env) (st : stage) (fs0 : gmap (list string) node)
    : stage * gmap (list string) node :=
  match st with
  | Trying content O i => (Raised FileExistsError, fs0)
  | Trying content (S n) i =>
      match os_open_excl e fs0 (parse_path (candidate e i)) with
      | inl FileExistsError => (Trying content n (S i), fs0)
      | inl err => (Raised err, fs0)
      | inr fs1 => (Opened content (parse_path (candidate e i)), fs1)
      end
  | Opened content tmp_path =>
      match content with
      | JStr text =>
          match os_write e fs0 tmp_path text with
          | inl err => (Raised err, fs0)
          | inr fs1 => (Written content tmp_path, fs1)
          end
      | _ => (Raised TypeError, fs0)
      end
  | Written content tmp_path => (Returned tmp_path content, fs0)
  | Returned _ _ | Raised _ => (st, fs0)
  end.

(** What the process has printed, and its exit code once it is over. *)
Definition printed (st : stage) : list json :=
  match st with
  | Returned tmp_path content =>
      [JObj [("id", JStr (py_str tmp_path)); ("content", content)]]
  | _ => []
  end.

Definition exited (st : stage) : option Z :=
  match st with
  | Returned _ _ => Some 0%Z
  | Raised (SystemExit n) => Some n
  | Raised _ => Some 1%Z
  | _ => None
  end.

(** Processes sharing a file system; the scheduler lets the [i]-th make its
    next system call. *)
Definition sys_step (i : nat)
    (s : list (env * stage) * gmap (list string) node)
    : list (env * stage) * gmap (list string) node :=
  match s.1 !! i with
  | Some (e, st) =>
      let '(st', fs1) := step e st s.2 in (<[i := (e, st')]> s.1, fs1)
  | None => s
  end.

(** An interleaving is the list of the processes scheduled, in order. *)
Definition run_schedule (sched : list nat)
    (s : list (env * stage) * gmap (list string) node)
    : list (env * stage) * gmap (list string) node :=
  foldl (λ s i, sys_step i s) s sched.

(** One process for each request. *)
Definition start_all (reqs : list (env * json)) : list (env * stage) :=
  map (λ r, (r.1, start r.1 r.2)) reqs.

(** The same requests served one after the other. *)
Fixpoint creates (reqs : list (env * json)) (fs0 : gmap (list string) node)
    : list outcome :=
  match reqs with
  | [] => []
  | r :: rest =>
      let o := invoke r.1 ActCreate r.2 fs0 in o :: creates rest (disk o)
  end.

(** The temporary file a process holds, once it has made it. *)
Definition held (st : stage) : option PurePath :=
  match st with
  | Opened _ p | Written _ p | Returned p _ => Some p
  | _ => None
  end.

(** What is left of [handle_create] once [_mkstemp_inner] has answered [r]:
    the stage the process ends in, and the file system then. *)
Definition finish (e : env) (content : json)
    (r : exn + (string * gmap (list string) node))
    (fs0 : gmap (list string) node) : stage * gmap (list string) node :=
  match r with
  | inl err => (Raised err, fs0)
  | inr (name, fs1) =>
      match content with
      | JStr text =>
          match os_write e fs1 (parse_path name) text with
          | inl err => (Raised err, fs1)
          | inr fs2 => (Returned (parse_path name) content, fs2)
          end
      | _ => (Raised TypeError, fs1)
      end
  end.

(** ** Well-formed names and environments *)

(** A component that names an entry: not empty, not [.] or [..], and free of
    slashes and NUL characters. *)
Definition plain_name (x : string) : bool :=
  keep_part x && negb (bool_decide (x = ".."))
  && negb (has_char sep x) && negb (has_char nul x).

(** [tempfile._RandomNameSequence.characters] *)
Definition characters : string := "abcdefghijklmnopqrstuvwxyz0123456789_".

Fixpoint drawn_from (alphabet s : string) : bool :=
  match s with
  | EmptyString => true
  | String c r => has_char c alphabet && drawn_from alphabet r
  end.

(** The environment is as the Python library leaves it: the temporary
    directory is an absolute normalised path, and the random names are made
    of the characters of [tempfile]. *)
Definition env_ok (e : env) : Prop :=
  forallb plain_name (tempdir e) = true
  ∧ ∀ i, drawn_from characters (rand_name e i) = true.

(** The strings pathlib leaves as they are: nothing after the root, or
    components none of which is empty or [.] (so no doubled or trailing
    slash). *)
Definition normal_form (s : string) : bool :=
  let '(r, rel) := splitroot s in
  if decide (rel = "") then negb (bool_decide (r = ""))
  else forallb keep_part (split_sep rel).

(** ** Vocabulary of the properties *)

(** Something (a file or a directory) is found at the path. *)
Definition present (e : env) (fs0 : gmap (list string) node) (p : PurePath)
    : bool :=
  match os_stat e fs0 p with
  | inr _ => true
  | inl _ => false
  end.

(** A request whose [id] is the string [s]. *)
Definition has_id (data : json) (s : string) : Prop :=
  dict_get data "id" JNull = inr (JStr s).

(** The [content] the handlers take from a request. *)
Definition content_of (data : json) : exn + json :=
  match dict_get data "input" (JObj []) with
  | inl err => inl err
  | inr input => dict_get input "content" (JStr "")
  end.

(** The requests [{"id": i}], [{"input": {"content": c}}] and
    [{"id": i, "input": {"content": c}}]. *)
Definition request_id (i : string) : json := JObj [("id", JStr i)].

Definition request_content (c : string) : json :=
  JObj [("input", JObj [("content", JStr c)])].

Definition request_update (i c : string) : json :=
  JObj [("id", JStr i); ("input", JObj [("content", JStr c)])].

(** The request is a dict without [input], or with an [input] dict without
    [content]. *)
Definition lacks_content (data : json) : Prop :=
  ∃ kvs, data = JObj kvs
         ∧ (assoc "input" kvs = None
            ∨ ∃ ikvs, assoc "input" kvs = Some (JObj ikvs)
                      ∧ assoc "content" ikvs = None).

(** The response [{"id": i, "content": c}]. *)
Definition response (i c : string) : json :=
  JObj [("id", JStr i); ("content", JStr c)].

(** The path of the [i]-th candidate of [NamedTemporaryFile]. *)
Definition tmp_key (e : env) (i : nat) : list string :=
  tempdir e ++ ["tmp" +:+ rand_name e i].

(** The absolute path [k] is a directory, reached through directories. *)
Definition dir_at (fs0 : gmap (list string) node) (k : list string) : bool :=
  bool_decide (walk fs0 [] k = inr k) && bool_decide (fs0 !! k = Some Dir).

(** The host lets a temporary file be made: the temporary directory is
    there and one of the names to be tried is free. *)
Definition can_create (e : env) (fs0 : gmap (list string) node) : Prop :=
  env_ok e ∧ dir_at fs0 (tempdir e) = true
  ∧ ∃ i, i < TMP_MAX e ∧ fs0 !! tmp_key e i = None.

(** The path names a regular file, or the kernel answers "no such file or
    directory" for it. *)
Definition file_or_missing (e : env) (fs0 : gmap (list string) node)
    (p : PurePath) : bool :=
  match os_stat e fs0 p with
  | inr (File _) | inl FileNotFoundError => true
  | _ => false
  end.

(** Nothing is at the path, and the directory that would hold it is there. *)
Definition creatable (e : env) (fs0 : gmap (list string) node) (p : PurePath)
    : bool :=
  match resolve e fs0 p with
  | inr k => bool_decide (fs0 !! k = None) && names_entry p
  | inl _ => false
  end.

(** The outcome of an invocation ended by an exception other than
    [SystemExit], having printed nothing, on the disk [fs0]. *)
Definition failed (fs0 : gmap (list string) node) : outcome :=
  {| exit_code := 1; stdout := []; disk := fs0 |}.

(** The request [{"id": v, ...rest}] for any JSON value [v]. *)
Definition with_id (v : json) (rest : list (string * json)) : json :=
  JObj (("id", v) :: rest).

(** ** A small host for the examples *)

(** A text with a carriage return in it: ["a\rb"], and what it reads as. *)
Definition cr_text : string := String "a" (String CR (String "b" EmptyString)).
Definition lf_text : string := String "a" (String LF (String "b" EmptyString)).


Definition demo_env : env := {|
  cwd := ["home"];
  tempdir := ["tmp"];
  TMP_MAX := 100 * 100;
  rand_name := λ i, match i with
                    | 0 => "aaaaaaaa"
                    | 1 => "bbbbbbbb"
                    | _ => "cccccccc"
                    end
|}.

(** [/], [/tmp], [/home] and the file [/home/f] holding ["old"]. *)
Definition demo_fs : gmap (list string) node :=
  <[ ["home"; "f"] := File "old" ]>
    (<[ ["home"] := Dir ]> (<[ ["tmp"] := Dir ]> {[ [] := Dir ]})).

(** The demo disk with every name [demo_env] can draw already taken. *)
Definition demo_fs_full : gmap (list string) node :=
  <[ ["tmp"; "tmpaaaaaaaa"] := File "1" ]>
    (<[ ["tmp"; "tmpbbbbbbbb"] := File "2" ]>
       (<[ ["tmp"; "tmpcccccccc"] := File "3" ]> demo_fs)).

(** Two create requests on the same host: both processes draw the same
    random names. *)
Definition demo_requests : list (env * json) :=
  [(demo_env, request_content "a"); (demo_env, request_content "b")].

(** The invariant of the interleavings: every process has a well-formed
    environment, the file a process holds is one of its candidates and is on
    the disk, and no two processes hold the same file. *)
Definition inv (s : list (env * stage) * gmap (list string) node) : Prop :=
  (∀ i e st, s.1 !! i = Some (e, st) → env_ok e)
  ∧ (∀ i e st p, s.1 !! i = Some (e, st) → held st = Some p →
       ∃ j, p = parse_path (candidate e j) ∧ is_Some (s.2 !! tmp_key e j))
  ∧ (∀ i1 i2 e1 e2 st1 st2 p, i1 ≠ i2 →
       s.1 !! i1 = Some (e1, st1) → s.1 !! i2 = Some (e2, st2) →
       held st1 = Some p → held st2 = Some p → False).

(** The content a process has written, once it has. *)
Definition kept (st : stage) : option json :=
  match st with
  | Written c _ | Returned _ c => Some c
  | _ => None
  end.

(** A stronger invariant of the interleavings started on the disk [fs0]:
    what was on the disk at the start is still there, unchanged; the file a
    process holds was not there at the start, is still reached by its name,
    and holds the content of the process once the process has written it. *)
Definition isolated (fs0 : gmap (list string) node)
    (s : list (env * stage) * gmap (list string) node) : Prop :=
  inv s
  ∧ (∀ k, is_Some (fs0 !! k) → s.2 !! k = fs0 !! k)
  ∧ (∀ i e st p, s.1 !! i = Some (e, st) → held st = Some p →
       ∃ j, p = parse_path (candidate e j) ∧ fs0 !! tmp_key e j = None
            ∧ resolve e s.2 p = inr (tmp_key e j)
            ∧ ∀ c, kept st = Some c →
                ∃ t, c = JStr t ∧ s.2 !! tmp_key e j = Some (File t)).

(** * Properties *)

(** ** Splitting and joining *)

Lemma split_sep_cons (s : string) : ∃ x xs, split_sep s = x :: xs.
Proof.
  induction s as [|c r IH]; simpl; [by eauto|].
  destruct IH as (x & xs & ->). case_decide; eauto.
Qed.

Lemma join_sep_cons (x y : string) (l : list string) :
  join_sep (x :: y :: l) = x +:+ String sep (join_sep (y :: l)).
Proof. done. Qed.

(** Splitting what was joined gives the parts back, when no part holds a
    slash. *)
Lemma split_sep_plain (x : string) :
  has_char sep x = false → split_sep x = [x].
Proof.
  induction x as [|c r IH]; simpl; [done|].
  case_decide; [done|]. intros Hx. by rewrite (IH Hx).
Qed.

Lemma split_sep_app (x r : string) :
  has_char sep x = false →
  split_sep (x +:+ String sep r) = x :: split_sep r.
Proof.
  induction x as [|c x IH]; simpl.
  - done.
  - case_decide; [done|]. intros Hx. by rewrite (IH Hx).
Qed.

Lemma split_join (l : list string) :
  l ≠ [] → Forall (λ x, has_char sep x = false) l →
  split_sep (join_sep l) = l.
Proof.
  induction l as [|x [|y l] IH]; intros Hne Hall; [done| |].
  - simpl. apply split_sep_plain. by inversion Hall.
  - rewrite join_sep_cons. inversion Hall as [|?? Hx Hrest]; subst.
    rewrite split_sep_app by done. f_equal. by apply IH.
Qed.

(** Joining what was split gives the string back, always. *)
Lemma join_split (s : string) : join_sep (split_sep s) = s.
Proof.
  induction s as [|c r IH]; simpl; [done|].
  destruct (split_sep_cons r) as (x & xs & Hr). rewrite Hr in *.
  case_decide as Hc.
  - by rewrite join_sep_cons, IH, Hc.
  - destruct xs as [|y xs]; simpl in *; by rewrite <- IH.
Qed.

Lemma split_sep_no_sep (s : string) :
  Forall (λ x, has_char sep x = false) (split_sep s).
Proof.
  induction s as [|c r IH]; simpl; [by repeat constructor|].
  destruct (split_sep_cons r) as (x & xs & Hr). rewrite Hr in *.
  inversion IH; subst. case_decide.
  - by repeat constructor.
  - constructor; [|done]. simpl. by rewrite decide_False.
Qed.

(** A character absent from a string is absent from all its parts. *)
Lemma split_sep_has_char (c : ascii) (s : string) :
  has_char c s = false → Forall (λ x, has_char c x = false) (split_sep s).
Proof.
  induction s as [|a r IH]; simpl; [by repeat constructor|].
  case_decide; [done|]. intros Hx. specialize (IH Hx).
  destruct (split_sep_cons r) as (x & xs & Hr). rewrite Hr in *.
  inversion IH; subst. case_decide.
  - by repeat constructor.
  - constructor; [|done]. simpl. by rewrite decide_False.
Qed.

(** ** Universal newlines *)

Lemma universal_newlines_id (s : string) :
  has_char CR s = false → universal_newlines s = s.
Proof.
  induction s as [|a r IH]; simpl; [done|].
  case_decide; [done|]. intros Hx. by rewrite (IH Hx).
Qed.

(** ** Paths *)

Lemma splitroot_app (s : string) :
  s = (splitroot s).1 +:+ (splitroot s).2.
Proof.
  destruct s as [|c1 [|c2 [|c3 r]]]; simpl; repeat case_decide; by subst.
Qed.

Lemma splitroot_root (s : string) :
  (splitroot s).1 = "" ∨ (splitroot s).1 = "/" ∨ (splitroot s).1 = "//".
Proof.
  destruct s as [|c1 [|c2 [|c3 r]]]; simpl; repeat case_decide; auto.
Qed.

Lemma filter_keep_all (l : list string) :
  forallb keep_part l = true → filter (λ x, keep_part x = true) l = l.
Proof.
  induction l as [|x l IH]; simpl; [done|].
  intros [Hx Hl]%andb_prop. rewrite filter_cons, decide_True by done.
  by rewrite IH.
Qed.

(** pathlib gives a string in normal form back unchanged. *)
Lemma py_str_normal_form (s : string) :
  normal_form s = true → py_str (parse_path s) = s.
Proof.
  unfold normal_form, parse_path, py_str.
  pose proof (splitroot_app s) as Hs.
  destruct (splitroot s) as [r rel]; simpl in *.
  intros Hn. etrans; [|symmetry; exact Hs]. clear Hs. revert Hn.
  case_decide as Hrel.
  - subst rel. intros Hr%negb_true_iff%bool_decide_eq_false. simpl.
    by rewrite decide_False.
  - intros Hall. rewrite filter_keep_all by done. rewrite join_split.
    case_decide as Hr; [|done]. subst r.
    destruct (split_sep_cons rel) as (x & xs & ->). done.
Qed.

Lemma plain_name_spec (x : string) :
  plain_name x = true →
  keep_part x = true ∧ x ≠ ".." ∧ has_char sep x = false
  ∧ has_char nul x = false.
Proof.
  unfold plain_name.
  intros [[[Hk Hd%negb_true_iff%bool_decide_eq_false]%andb_prop
    Hs%negb_true_iff]%andb_prop Hn%negb_true_iff]%andb_prop.
  done.
Qed.

Lemma plain_names_spec (k : list string) :
  forallb plain_name k = true →
  forallb keep_part k = true
  ∧ Forall (λ x, x ≠ "..") k
  ∧ Forall (λ x, has_char sep x = false) k
  ∧ existsb (has_char nul) k = false.
Proof.
  induction k as [|x k IH]; simpl; [done|].
  intros [Hx Hk]%andb_prop.
  destruct (plain_name_spec x Hx) as (-> & ? & ? & ->).
  destruct (IH Hk) as (-> & ? & ? & ->). repeat split; by try constructor.
Qed.

(** The name of an absolute path parses back to its components. *)
Lemma parse_abs_str (k : list string) :
  forallb plain_name k = true →
  parse_path (abs_str k) = {| root := "/"; tail := k |}.
Proof.
  intros (Hkeep & _ & Hsep & _)%plain_names_spec.
  destruct k as [|x l]; [done|].
  assert (∃ c r, join_sep (x :: l) = String c r ∧ c ≠ sep) as (c & r & Hj & Hc).
  { inversion Hsep as [|?? Hx _]; subst. simpl in Hkeep.
    destruct x as [|c x']; [done|]. simpl in Hx.
    destruct (decide (c = sep)); [done|].
    destruct l; simpl; eauto. }
  unfold abs_str. rewrite Hj. unfold parse_path. simpl.
  rewrite decide_False by done. rewrite <- Hj.
  rewrite split_join by done. by rewrite filter_keep_all.
Qed.

Lemma py_str_abs (k : list string) :
  py_str {| root := "/"; tail := k |} = abs_str k.
Proof. done. Qed.

(** Distinct absolute paths have distinct names. *)
Lemma abs_str_inj (k1 k2 : list string) :
  forallb plain_name k1 = true → forallb plain_name k2 = true →
  abs_str k1 = abs_str k2 → k1 = k2.
Proof.
  intros H1 H2 Heq. apply parse_abs_str in H1, H2.
  rewrite Heq in H1. rewrite H1 in H2. by inversion H2.
Qed.

(** A random name of [tempfile], behind its prefix, names an entry. *)
Lemma drawn_from_characters (s : string) :
  drawn_from characters s = true →
  has_char sep s = false ∧ has_char nul s = false.
Proof.
  induction s as [|c r IH]; simpl; [done|].
  intros [Hc Hr]%andb_prop. destruct (IH Hr) as [-> ->].
  split.
  - destruct (decide (c = sep)) as [->|]; [by vm_compute in Hc|done].
  - destruct (decide (c = nul)) as [->|]; [by vm_compute in Hc|done].
Qed.

Lemma plain_tmp_name (s : string) :
  drawn_from characters s = true → plain_name ("tmp" +:+ s) = true.
Proof.
  intros [Hs Hn]%drawn_from_characters. unfold plain_name. simpl.
  change ("" +:+ s) with s. by rewrite Hs, Hn.
Qed.

(** ** Path resolution *)

Lemma walk_app (fs0 : gmap (list string) node) (cur l1 l2 : list string) :
  walk fs0 cur (l1 ++ l2) =
  match walk fs0 cur l1 with
  | inr k => walk fs0 k l2
  | inl err => inl err
  end.
Proof.
  revert cur. induction l1 as [|c l1 IH]; intros cur; simpl; [done|].
  destruct (fs0 !! cur) as [[]|]; auto.
Qed.

(** Without [..], a walk that succeeds ends where the components say. *)
Lemma walk_plain (fs0 : gmap (list string) node) (cur l k : list string) :
  Forall (λ x, x ≠ "..") l → walk fs0 cur l = inr k → k = cur ++ l.
Proof.
  revert cur. induction l as [|c l IH]; intros cur Hl; simpl.
  - intros [= <-]. by rewrite app_nil_r.
  - inversion Hl; subst. destruct (fs0 !! cur) as [[]|]; try done.
    intros Hw. apply IH in Hw; [|done]. subst k.
    unfold enter. rewrite decide_False by done. by rewrite <- app_assoc.
Qed.

(** A walk that succeeds still does after directories are added or files
    change: it looked at directories only. *)
Lemma walk_mono (fs1 fs2 : gmap (list string) node) (cur l k : list string) :
  (∀ d, fs1 !! d = Some Dir → fs2 !! d = Some Dir) →
  walk fs1 cur l = inr k → walk fs2 cur l = inr k.
Proof.
  intros Hsub. revert cur. induction l as [|c l IH]; intros cur; simpl; [done|].
  destruct (fs1 !! cur) as [[]|] eqn:Hcur; try done.
  rewrite (Hsub _ Hcur). apply IH.
Qed.

Lemma dirs_insert_file (fs0 : gmap (list string) node) (k d : list string)
    (t : string) :
  fs0 !! k ≠ Some Dir → fs0 !! d = Some Dir →
  <[k := File t]> fs0 !! d = Some Dir.
Proof.
  intros Hk Hd. rewrite lookup_insert_ne; [done|]. by intros ->.
Qed.

Lemma dirs_delete_file (fs0 : gmap (list string) node) (k d : list string) :
  fs0 !! k ≠ Some Dir → fs0 !! d = Some Dir → delete k fs0 !! d = Some Dir.
Proof.
  intros Hk Hd. rewrite lookup_delete_ne; [done|]. by intros ->.
Qed.

(** ** The handlers, run *)

Ltac run :=
  unfold invoke, main, handle_create, handle_read, handle_update,
    handle_delete, mbind, M_bind, mret, M_ret, lift, raise, sys_exit,
    exists_, read_text, write_text, unlink_missing_ok, query, syscall, print;
  simpl.

Lemma resolve_errors (e : env) (fs0 : gmap (list string) node) (p : PurePath)
    (err : exn) :
  resolve e fs0 p = inl err →
  err = FileNotFoundError ∨ err = NotADirectoryError ∨ err = ValueError.
Proof.
  unfold resolve. destruct (embedded_null p).
  - intros [= <-]. auto.
  - generalize (if decide (root p = "") then cwd e else []).
    induction (tail p) as [|c l IH]; intros cur; simpl; [done|].
    destruct (fs0 !! cur) as [[]|]; eauto; intros [= <-]; auto.
Qed.

Lemma os_stat_errors (e : env) (fs0 : gmap (list string) node) (p : PurePath)
    (err : exn) :
  os_stat e fs0 p = inl err →
  err = FileNotFoundError ∨ err = NotADirectoryError ∨ err = ValueError.
Proof.
  unfold os_stat. destruct (resolve e fs0 p) as [err'|k] eqn:Hr.
  - intros [= <-]. by eapply resolve_errors.
  - destruct (fs0 !! k); [done|]. intros [= <-]. auto.
Qed.

(** No system call raises [SystemExit]. *)
Lemma os_read_no_exit (e : env) (fs0 : gmap (list string) node) (p : PurePath)
    (n : Z) :
  os_read e fs0 p ≠ inl (SystemExit n).
Proof.
  unfold os_read. destruct (resolve e fs0 p) as [err|k] eqn:Hr.
  - intros [= ->]. by destruct (resolve_errors _ _ _ _ Hr) as [?|[?|?]].
  - by destruct (fs0 !! k) as [[]|].
Qed.

Lemma os_write_no_exit (e : env) (fs0 : gmap (list string) node) (p : PurePath)
    (c : string) (n : Z) :
  os_write e fs0 p c ≠ inl (SystemExit n).
Proof.
  unfold os_write. destruct (resolve e fs0 p) as [err|k] eqn:Hr.
  - intros [= ->]. by destruct (resolve_errors _ _ _ _ Hr) as [?|[?|?]].
  - destruct (fs0 !! k) as [[]|]; try done. by destruct (names_entry p).
Qed.

Lemma dict_get_no_exit (d : json) (k : string) (v : json) (n : Z) :
  dict_get d k v ≠ inl (SystemExit n).
Proof. by destruct d. Qed.

(** [handle_read] on a path where nothing is found. *)
Lemma read_absent (e : env) (fs0 : gmap (list string) node) (data : json)
    (s : string) :
  has_id data s → present e fs0 (parse_path s) = false →
  invoke e ActRead data fs0 =
  {| exit_code := 22; stdout := []; disk := fs0 |}.
Proof.
  unfold has_id, present. intros Hid Hp. run. rewrite Hid. simpl.
  destruct (os_stat e fs0 (parse_path s)) as [err|n] eqn:Hst; [|done].
  by destruct (os_stat_errors _ _ _ _ Hst) as [->| [->| ->]].
Qed.

(** C1. A read whose [id] names a path at which nothing exists exits with
    code 22 and writes nothing to the standard output. *)
Theorem read_missing_exit_22 (e : env) (fs0 : gmap (list string) node)
    (data : json) (s : string) :
  has_id data s → present e fs0 (parse_path s) = false →
  exit_code (invoke e ActRead data fs0) = 22%Z
  ∧ stdout (invoke e ActRead data fs0) = [].
Proof. intros Hid Hp. by rewrite (read_absent e fs0 data s Hid Hp). Qed.

Lemma read_missing_exit_22_witness :
  exit_code (invoke demo_env ActRead
    (request_id "non_existent_file") demo_fs) = 22%Z
  ∧ stdout (invoke demo_env ActRead
    (request_id "non_existent_file") demo_fs) = [].
Proof.
  apply (read_missing_exit_22 demo_env demo_fs
           (request_id "non_existent_file") "non_existent_file").
  - reflexivity.
  - vm_compute. reflexivity.
Defined.

(** C9. A read changes nothing in the file system: whatever the request and
    whether the read succeeds or fails, every path holds afterwards what it
    held before. *)
Theorem read_leaves_disk (e : env) (fs0 : gmap (list string) node)
    (data : json) :
  disk (invoke e ActRead data fs0) = fs0.
Proof.
  run. destruct (dict_get data "id" JNull) as [err|v]; simpl; [done|].
  destruct (Path v) as [err|p]; simpl; [done|].
  destruct (os_stat e fs0 p) as [[]|n]; simpl; try done.
  by destruct (os_read e fs0 p).
Qed.

(** ** Delete *)

Lemma delete_file_or_missing (e : env) (fs0 : gmap (list string) node)
    (data : json) (s : string) :
  has_id data s → file_or_missing e fs0 (parse_path s) = true →
  ∃ fs1, invoke e ActDelete data fs0 =
         {| exit_code := 0; stdout := []; disk := fs1 |}
         ∧ present e fs1 (parse_path s) = false.
Proof.
  unfold has_id, file_or_missing, present, os_stat. intros Hid. run.
  rewrite Hid. simpl. unfold os_unlink.
  destruct (resolve e fs0 (parse_path s)) as [err|k] eqn:Hr.
  - destruct err; try done. intros _. exists fs0. by rewrite Hr.
  - destruct (fs0 !! k) as [[t|]|] eqn:Hk; try done; intros _.
    + exists (delete k fs0). split; [done|].
      unfold resolve in *. destruct (embedded_null (parse_path s)); [done|].
      erewrite walk_mono; [|
        intros d Hd; apply dirs_delete_file; [by rewrite Hk | exact Hd]
        | exact Hr].
      by rewrite lookup_delete_eq.
    + exists fs0. by rewrite Hr, Hk.
Qed.

(** C4, as the code has it. A delete whose [id] names a regular file, or a
    path for which the kernel finds no such file or directory, exits with code
    0 and writes nothing to the standard output, whether or not the file was
    there. *)
Theorem delete_exit_0 (e : env) (fs0 : gmap (list string) node)
    (data : json) (s : string) :
  has_id data s → file_or_missing e fs0 (parse_path s) = true →
  exit_code (invoke e ActDelete data fs0) = 0%Z
  ∧ stdout (invoke e ActDelete data fs0) = [].
Proof.
  intros Hid Hp.
  destruct (delete_file_or_missing e fs0 data s Hid Hp) as (fs1 & -> & _).
  done.
Qed.

Lemma delete_exit_0_witness :
  exit_code (invoke demo_env ActDelete (request_id "any") demo_fs)
  = 0%Z
  ∧ stdout (invoke demo_env ActDelete (request_id "any") demo_fs)
    = [].
Proof.
  apply (delete_exit_0 demo_env demo_fs (request_id "any") "any").
  - reflexivity.
  - vm_compute. reflexivity.
Defined.

(** C4 fails as stated: the path [/tmp] exists and is a directory, [unlink]
    raises [IsADirectoryError], which [missing_ok] does not cover, and the
    process exits with code 1. *)
Lemma delete_directory_exit_1 :
  has_id (request_id "/tmp") "/tmp"
  ∧ exit_code (invoke demo_env ActDelete (request_id "/tmp") demo_fs)
    = 1%Z.
Proof. split; [reflexivity | vm_compute; reflexivity]. Qed.

(** The same for a path that goes through a regular file. *)
Example delete_through_file_exit_1 :
  exit_code (invoke demo_env ActDelete (request_id "f/x") demo_fs)
  = 1%Z.
Proof. vm_compute. reflexivity. Qed.

(** ** Update *)

Lemma content_of_inv (data : json) (c : json) :
  content_of data = inr c →
  ∃ input, dict_get data "input" (JObj []) = inr input
           ∧ dict_get input "content" (JStr "") = inr c.
Proof.
  unfold content_of. destruct (dict_get data "input" (JObj [])); [done|].
  eauto.
Qed.

(** Writing to a path that resolves to [k], where there is no directory. *)
Lemma write_resolved (e : env) (fs0 : gmap (list string) node) (p : PurePath)
    (k : list string) (c : string) :
  resolve e fs0 p = inr k → fs0 !! k ≠ Some Dir →
  (fs0 !! k = None → names_entry p = true) →
  os_write e fs0 p c = inr (<[k := File c]> fs0)
  ∧ resolve e (<[k := File c]> fs0) p = inr k
  ∧ os_stat e (<[k := File c]> fs0) p = inr (File c).
Proof.
  intros Hr Hk Hn.
  assert (resolve e (<[k := File c]> fs0) p = inr k) as Hr'.
  { unfold resolve in *. destruct (embedded_null p); [done|].
    eapply walk_mono; [|exact Hr]. intros d Hd. by apply dirs_insert_file. }
  unfold os_write, os_stat. rewrite Hr, Hr', lookup_insert_eq.
  destruct (fs0 !! k) as [[]|]; try done. by rewrite Hn.
Qed.

Lemma update_resolved (e : env) (fs0 : gmap (list string) node) (data : json)
    (s c : string) (k : list string) :
  has_id data s → content_of data = inr (JStr c) →
  resolve e fs0 (parse_path s) = inr k → fs0 !! k ≠ Some Dir →
  (fs0 !! k = None → names_entry (parse_path s) = true) →
  invoke e ActUpdate data fs0 =
  {| exit_code := 0; stdout := [response (py_str (parse_path s)) c];
     disk := <[k := File c]> fs0 |}
  ∧ os_stat e (<[k := File c]> fs0) (parse_path s) = inr (File c).
Proof.
  intros Hid (input & Hin & Hc)%content_of_inv Hr Hk Hn.
  destruct (write_resolved e fs0 _ k c Hr Hk Hn) as (Hw & _ & Hst).
  split; [|done]. run. unfold has_id in Hid.
  rewrite Hid. simpl. rewrite Hin. simpl. rewrite Hc. simpl. by rewrite Hw.
Qed.

(** C3. An update of an existing resource holding [c1] with the content
    [c2] succeeds, answers [c2], and leaves the resource holding exactly
    [c2]: the old content is replaced, nothing is appended. *)
Theorem update_overwrites (e : env) (fs0 : gmap (list string) node)
    (data : json) (s c1 c2 : string) :
  has_id data s → content_of data = inr (JStr c2) →
  os_stat e fs0 (parse_path s) = inr (File c1) →
  exit_code (invoke e ActUpdate data fs0) = 0%Z
  ∧ stdout (invoke e ActUpdate data fs0)
    = [response (py_str (parse_path s)) c2]
  ∧ os_stat e (disk (invoke e ActUpdate data fs0)) (parse_path s)
    = inr (File c2).
Proof.
  intros Hid Hc Hst. unfold os_stat in Hst.
  destruct (resolve e fs0 (parse_path s)) as [|k] eqn:Hr; [done|].
  destruct (fs0 !! k) as [n|] eqn:Hk; [|done]. injection Hst as ->.
  destruct (update_resolved e fs0 data s c2 k Hid Hc Hr) as [-> Hst'];
    by rewrite ?Hk.
Qed.

Lemma update_overwrites_witness :
  exit_code (invoke demo_env ActUpdate
    (request_update "/home/f" "new content") demo_fs) = 0%Z
  ∧ stdout (invoke demo_env ActUpdate
      (request_update "/home/f" "new content") demo_fs)
    = [response "/home/f" "new content"]
  ∧ os_stat demo_env (disk (invoke demo_env ActUpdate
      (request_update "/home/f" "new content") demo_fs))
      (parse_path "/home/f") = inr (File "new content").
Proof.
  apply (update_overwrites demo_env demo_fs
           (request_update "/home/f" "new content") "/home/f" "old"
           "new content").
  - reflexivity.
  - reflexivity.
  - vm_compute. reflexivity.
Defined.

(** C10. An update whose [id] names a path at which nothing exists, in a
    directory that does, succeeds with exit code 0 and creates the resource
    with the given content: update does not need the resource to exist. *)
Theorem update_creates (e : env) (fs0 : gmap (list string) node)
    (data : json) (s c : string) :
  has_id data s → content_of data = inr (JStr c) →
  creatable e fs0 (parse_path s) = true →
  present e fs0 (parse_path s) = false
  ∧ exit_code (invoke e ActUpdate data fs0) = 0%Z
  ∧ stdout (invoke e ActUpdate data fs0) = [response (py_str (parse_path s)) c]
  ∧ os_stat e (disk (invoke e ActUpdate data fs0)) (parse_path s)
    = inr (File c).
Proof.
  intros Hid Hc. unfold creatable, present, os_stat.
  destruct (resolve e fs0 (parse_path s)) as [|k] eqn:Hr; [done|].
  intros [Hk%bool_decide_eq_true Hn]%andb_prop. rewrite Hk. split; [done|].
  destruct (update_resolved e fs0 data s c k Hid Hc Hr) as [-> Hst'];
    by rewrite ?Hk.
Qed.

Lemma update_creates_witness :
  present demo_env demo_fs (parse_path "/home/g") = false
  ∧ exit_code (invoke demo_env ActUpdate
      (request_update "/home/g" "fresh") demo_fs) = 0%Z
  ∧ stdout (invoke demo_env ActUpdate
      (request_update "/home/g" "fresh") demo_fs)
    = [response "/home/g" "fresh"]
  ∧ os_stat demo_env (disk (invoke demo_env ActUpdate
      (request_update "/home/g" "fresh") demo_fs))
      (parse_path "/home/g") = inr (File "fresh").
Proof.
  apply (update_creates demo_env demo_fs
           (request_update "/home/g" "fresh") "/home/g" "fresh").
  - reflexivity.
  - reflexivity.
  - vm_compute. reflexivity.
Defined.

(** ** The [id] of a response *)

Lemma read_success (e : env) (fs0 : gmap (list string) node) (data : json)
    (s : string) :
  has_id data s → exit_code (invoke e ActRead data fs0) = 0%Z →
  ∃ c, stdout (invoke e ActRead data fs0)
       = [response (py_str (parse_path s)) c].
Proof.
  unfold has_id. intros Hid. run. rewrite Hid. simpl.
  destruct (os_stat e fs0 (parse_path s)) as [err|n] eqn:Hst; simpl.
  { by destruct (os_stat_errors _ _ _ _ Hst) as [->|[->| ->]]. }
  pose proof (os_read_no_exit e fs0 (parse_path s)) as Hne.
  destruct (os_read e fs0 (parse_path s)) as [[]|c]; simpl; try done.
  - intros ->. by destruct (Hne 0%Z).
  - by exists c.
Qed.

Lemma update_success (e : env) (fs0 : gmap (list string) node) (data : json)
    (s : string) :
  has_id data s → exit_code (invoke e ActUpdate data fs0) = 0%Z →
  ∃ c, stdout (invoke e ActUpdate data fs0)
       = [response (py_str (parse_path s)) c].
Proof.
  unfold has_id. intros Hid. run. rewrite Hid. simpl.
  pose proof (dict_get_no_exit data "input" (JObj [])) as Hne1.
  destruct (dict_get data "input" (JObj [])) as [[]|input]; simpl; try done.
  { intros ->. by destruct (Hne1 0%Z). }
  pose proof (dict_get_no_exit input "content" (JStr "")) as Hne2.
  destruct (dict_get input "content" (JStr "")) as [[]|[|b|n|c|l|kvs]]; simpl;
    try done.
  { intros ->. by destruct (Hne2 0%Z). }
  pose proof (os_write_no_exit e fs0 (parse_path s) c) as Hne3.
  destruct (os_write e fs0 (parse_path s) c) as [[]|fs1]; simpl; try done.
  - intros ->. by destruct (Hne3 0%Z).
  - by exists c.
Qed.

(** C7, as the code has it. The [id] of the response of a successful read
    or update is [str(Path(id))] for the [id] of the request: the path as
    pathlib writes it, without doubled slashes, [.] components or a trailing
    slash. It is the [id] of the request itself whenever that is written in
    this form already. *)
Theorem response_id_is_path_str (e : env) (fs0 : gmap (list string) node)
    (a : action) (data : json) (s : string) :
  a = ActRead ∨ a = ActUpdate → has_id data s →
  exit_code (invoke e a data fs0) = 0%Z →
  (∃ c, stdout (invoke e a data fs0) = [response (py_str (parse_path s)) c])
  ∧ (normal_form s = true → py_str (parse_path s) = s).
Proof.
  intros Ha Hid Hex. split; [|apply py_str_normal_form].
  destruct Ha as [-> | ->]; [by apply read_success | by apply update_success].
Qed.

Lemma response_id_is_path_str_witness :
  (∃ c, stdout (invoke demo_env ActRead (request_id "/home/f") demo_fs)
        = [response "/home/f" c])
  ∧ (normal_form "/home/f" = true → py_str (parse_path "/home/f") = "/home/f").
Proof.
  apply (response_id_is_path_str demo_env demo_fs ActRead
           (request_id "/home/f") "/home/f").
  - left. reflexivity.
  - reflexivity.
  - vm_compute. reflexivity.
Defined.

(** C7 fails as stated: the file [/home/f] read under the name [/home//f]
    is answered with the [id] [/home/f], which is not the [id] given. *)
Lemma read_id_not_echoed :
  exit_code (invoke demo_env ActRead (request_id "/home//f") demo_fs) = 0%Z
  ∧ stdout (invoke demo_env ActRead (request_id "/home//f") demo_fs)
    = [response "/home/f" "old"]
  ∧ "/home/f" ≠ "/home//f".
Proof.
  split; [vm_compute; reflexivity|]. split; [vm_compute; reflexivity|done].
Qed.

(** An update under the name [./f] is answered with the [id] [f]. *)
Example update_id_not_echoed :
  stdout (invoke demo_env ActUpdate (request_update "./f" "new") demo_fs)
  = [response "f" "new"].
Proof. vm_compute. reflexivity. Qed.

(** ** Create *)

Lemma tmp_key_plain (e : env) (i : nat) :
  env_ok e → forallb plain_name (tmp_key e i) = true.
Proof.
  intros [Hd Hr]. unfold tmp_key. rewrite forallb_app, Hd. simpl.
  by rewrite plain_tmp_name.
Qed.

Lemma parse_candidate (e : env) (i : nat) :
  env_ok e →
  parse_path (candidate e i) = {| root := "/"; tail := tmp_key e i |}.
Proof. intros He. by apply parse_abs_str, tmp_key_plain. Qed.

(** A candidate resolves to its own path or not at all. *)
Lemma resolve_candidate (e e' : env) (fs0 : gmap (list string) node) (i : nat)
    (k : list string) :
  env_ok e →
  resolve e' fs0 (parse_path (candidate e i)) = inr k → k = tmp_key e i.
Proof.
  intros He. rewrite parse_candidate by done. unfold resolve, embedded_null. simpl.
  destruct (plain_names_spec _ (tmp_key_plain e i He)) as (_ & Hdd & _ & ->).
  intros Hw. by apply walk_plain in Hw.
Qed.

Lemma resolve_candidate_dir (e e' : env) (fs0 : gmap (list string) node)
    (i : nat) :
  env_ok e → dir_at fs0 (tempdir e) = true →
  resolve e' fs0 (parse_path (candidate e i)) = inr (tmp_key e i).
Proof.
  intros He [Hw%bool_decide_eq_true Hd%bool_decide_eq_true]%andb_prop.
  rewrite parse_candidate by done. unfold resolve, embedded_null. simpl.
  destruct (plain_names_spec _ (tmp_key_plain e i He)) as (_ & _ & _ & ->).
  unfold tmp_key. rewrite walk_app, Hw. simpl. rewrite Hd.
  unfold enter. destruct He as [_ Hr].
  destruct (plain_name_spec _ (plain_tmp_name _ (Hr i))) as (_ & Hdd & _).
  by rewrite decide_False.
Qed.

Lemma names_entry_candidate (e : env) (i : nat) :
  env_ok e → names_entry (parse_path (candidate e i)) = true.
Proof.
  intros He. rewrite parse_candidate by done. unfold names_entry, tmp_key.
  simpl. rewrite last_snoc. destruct He as [_ Hr].
  destruct (plain_name_spec _ (plain_tmp_name _ (Hr i))) as (_ & Hdd & _).
  by rewrite bool_decide_eq_false_2.
Qed.

(** The loop of [_mkstemp_inner] takes the first free candidate. *)
Lemma mkstemp_inner_free (e : env) (fs0 : gmap (list string) node) (n i0 : nat) :
  env_ok e → dir_at fs0 (tempdir e) = true →
  (∃ i, i0 ≤ i < i0 + n ∧ fs0 !! tmp_key e i = None) →
  ∃ i, fs0 !! tmp_key e i = None
       ∧ mkstemp_inner e n i0 fs0
         = inr (candidate e i, <[tmp_key e i := File ""]> fs0).
Proof.
  intros He Hd. revert i0. induction n as [|n IH]; intros i0 (i & Hi & Hfree).
  - lia.
  - simpl. unfold os_open_excl.
    rewrite (resolve_candidate_dir e e fs0 i0 He Hd).
    destruct (fs0 !! tmp_key e i0) eqn:Hk.
    + apply IH. exists i. split; [|done].
      destruct (decide (i = i0)) as [->|]; [congruence|lia].
    + exists i0. by rewrite names_entry_candidate.
Qed.

(** What a create leaves behind when the host lets it make its file. *)
Lemma create_spec (e : env) (fs0 : gmap (list string) node) (data : json)
    (c : string) :
  can_create e fs0 → content_of data = inr (JStr c) →
  ∃ i, fs0 !! tmp_key e i = None
       ∧ invoke e ActCreate data fs0 =
         {| exit_code := 0; stdout := [response (candidate e i) c];
            disk := <[tmp_key e i := File c]> fs0 |}.
Proof.
  intros (He & Hd & i & Hi & Hfree) (input & Hin & Hc)%content_of_inv.
  destruct (mkstemp_inner_free e fs0 (TMP_MAX e) 0 He Hd) as (j & Hj & Hmk).
  { exists i. split; [lia|done]. }
  exists j. split; [done|]. run. rewrite Hin. simpl. rewrite Hc. simpl.
  unfold NamedTemporaryFile. simpl. rewrite Hmk. simpl.
  assert (dir_at (<[tmp_key e j := File ""]> fs0) (tempdir e) = true) as Hd'.
  { apply andb_prop in Hd as [Hw%bool_decide_eq_true Hdir%bool_decide_eq_true].
    unfold dir_at. rewrite !bool_decide_eq_true_2; [done| |].
    - apply dirs_insert_file; [by rewrite Hj | done].
    - eapply walk_mono; [|exact Hw]. intros d Hdd.
      apply dirs_insert_file; [by rewrite Hj | done]. }
  destruct (write_resolved e (<[tmp_key e j := File ""]> fs0)
    (parse_path (candidate e j)) (tmp_key e j) c) as (-> & _).
  - by apply resolve_candidate_dir.
  - by rewrite lookup_insert_eq.
  - by rewrite lookup_insert_eq.
  - rewrite insert_insert_eq. rewrite parse_candidate by done. done.
Qed.

Lemma mkstemp_inner_inv (e : env) (fs0 fs1 : gmap (list string) node)
    (n i0 : nat) (name : string) :
  env_ok e → mkstemp_inner e n i0 fs0 = inr (name, fs1) →
  ∃ j, name = candidate e j ∧ fs0 !! tmp_key e j = None
       ∧ fs1 = <[tmp_key e j := File ""]> fs0
       ∧ resolve e fs0 (parse_path (candidate e j)) = inr (tmp_key e j).
Proof.
  intros He. revert i0. induction n as [|n IH]; intros i0; simpl; [done|].
  unfold os_open_excl.
  destruct (resolve e fs0 (parse_path (candidate e i0))) as [err|k] eqn:Hr.
  { destruct err; try done. apply IH. }
  pose proof (resolve_candidate e e fs0 i0 k He Hr) as ->.
  destruct (fs0 !! tmp_key e i0) eqn:Hk; [apply IH|].
  rewrite names_entry_candidate by done. intros [= <- <-]. by exists i0.
Qed.

Lemma mkstemp_inner_no_exit (e : env) (fs0 : gmap (list string) node)
    (n i0 : nat) (code : Z) :
  mkstemp_inner e n i0 fs0 ≠ inl (SystemExit code).
Proof.
  revert i0. induction n as [|n IH]; intros i0; simpl; [done|].
  unfold os_open_excl.
  destruct (resolve e fs0 (parse_path (candidate e i0))) as [err|k] eqn:Hr.
  { destruct (resolve_errors _ _ _ _ Hr) as [->|[->| ->]]; done. }
  destruct (fs0 !! k); [apply IH|].
  by destruct (names_entry (parse_path (candidate e i0))).
Qed.

(** A create that exits with code 0 has made a file that was not there,
    holding the content of the request, and answered with its name. *)
Lemma create_success_inv (e : env) (fs0 : gmap (list string) node)
    (data : json) :
  env_ok e → exit_code (invoke e ActCreate data fs0) = 0%Z →
  ∃ j c, content_of data = inr (JStr c)
         ∧ fs0 !! tmp_key e j = None
         ∧ resolve e fs0 (parse_path (candidate e j)) = inr (tmp_key e j)
         ∧ invoke e ActCreate data fs0 =
           {| exit_code := 0; stdout := [response (candidate e j) c];
              disk := <[tmp_key e j := File c]> fs0 |}.
Proof.
  intros He. unfold content_of. run.
  pose proof (dict_get_no_exit data "input" (JObj [])) as Hne1.
  destruct (dict_get data "input" (JObj [])) as [[]|input]; simpl; try done.
  { intros ->. by destruct (Hne1 0%Z). }
  pose proof (dict_get_no_exit input "content" (JStr "")) as Hne2.
  destruct (dict_get input "content" (JStr "")) as [[]|content]; simpl;
    try done.
  { intros ->. by destruct (Hne2 0%Z). }
  unfold NamedTemporaryFile. simpl.
  pose proof (mkstemp_inner_no_exit e fs0 (TMP_MAX e) 0) as Hne3.
  destruct (mkstemp_inner e (TMP_MAX e) 0 fs0) as [[]|[name fs1]] eqn:Hmk;
    simpl; try done.
  { intros ->. by destruct (Hne3 0%Z). }
  destruct (mkstemp_inner_inv e fs0 fs1 _ _ name He Hmk)
    as (j & -> & Hfree & -> & Hr).
  destruct content as [|b|n|c|l|kvs]; simpl; try done.
  intros _. exists j, c.
  destruct (write_resolved e (<[tmp_key e j := File ""]> fs0)
    (parse_path (candidate e j)) (tmp_key e j) c) as (-> & _).
  - unfold resolve in *.
    destruct (embedded_null (parse_path (candidate e j))); [done|].
    eapply walk_mono; [|exact Hr]. intros d Hd.
    apply dirs_insert_file; [by rewrite Hfree | exact Hd].
  - by rewrite lookup_insert_eq.
  - by rewrite lookup_insert_eq.
  - rewrite insert_insert_eq, parse_candidate by done.
    rewrite parse_candidate in Hr by done. done.
Qed.

Lemma demo_env_ok : env_ok demo_env.
Proof. split; [reflexivity|]. by intros [|[|i]]. Qed.

Lemma demo_can_create : can_create demo_env demo_fs.
Proof.
  split; [apply demo_env_ok|]. split; [vm_compute; reflexivity|].
  exists 0. split; [|vm_compute; reflexivity].
  apply Nat.ltb_lt. vm_compute. reflexivity.
Qed.

(** ** Read *)

Lemma resolve_abs (e e' : env) (fs0 : gmap (list string) node) (p : PurePath) :
  root p ≠ "" → resolve e fs0 p = resolve e' fs0 p.
Proof. intros Hr. unfold resolve. by rewrite !decide_False. Qed.

Lemma read_resolved (e : env) (fs0 : gmap (list string) node) (data : json)
    (s t : string) (k : list string) :
  has_id data s → resolve e fs0 (parse_path s) = inr k →
  fs0 !! k = Some (File t) →
  invoke e ActRead data fs0 =
  {| exit_code := 0;
     stdout := [response (py_str (parse_path s)) (universal_newlines t)];
     disk := fs0 |}.
Proof.
  unfold has_id. intros Hid Hr Hk. run. rewrite Hid. simpl.
  unfold os_stat, os_read. rewrite Hr, Hk. simpl. by rewrite Hr, Hk.
Qed.

(** The file a create has made is read back under the name it answered. *)
Lemma read_created (e e' : env) (fs0 : gmap (list string) node) (j : nat)
    (c : string) :
  env_ok e → fs0 !! tmp_key e j = None →
  resolve e fs0 (parse_path (candidate e j)) = inr (tmp_key e j) →
  invoke e' ActRead (request_id (candidate e j))
    (<[tmp_key e j := File c]> fs0) =
  {| exit_code := 0;
     stdout := [response (candidate e j) (universal_newlines c)];
     disk := <[tmp_key e j := File c]> fs0 |}.
Proof.
  intros He Hfree Hr.
  rewrite (read_resolved e' _ _ (candidate e j) c (tmp_key e j)).
  - by rewrite parse_candidate.
  - done.
  - rewrite (resolve_abs e' e) by by rewrite parse_candidate.
    unfold resolve in *.
    destruct (embedded_null (parse_path (candidate e j))); [done|].
    eapply walk_mono; [|exact Hr]. intros d Hd.
    apply dirs_insert_file; [by rewrite Hfree | exact Hd].
  - by rewrite lookup_insert_eq.
Qed.

(** C2, as the code has it. A create with the content [c] succeeds and
    answers [c]; a read of the [id] it answered succeeds and answers [c] with
    every ["\r\n"] and every other ["\r"] turned into ["\n"], which is [c]
    itself when [c] holds no carriage return. *)
Theorem create_read_round_trip (e e' : env) (fs0 : gmap (list string) node)
    (data : json) (c : string) :
  can_create e fs0 → content_of data = inr (JStr c) →
  ∃ i, exit_code (invoke e ActCreate data fs0) = 0%Z
       ∧ stdout (invoke e ActCreate data fs0) = [response i c]
       ∧ exit_code (invoke e' ActRead (request_id i)
           (disk (invoke e ActCreate data fs0))) = 0%Z
       ∧ stdout (invoke e' ActRead (request_id i)
           (disk (invoke e ActCreate data fs0)))
         = [response i (universal_newlines c)]
       ∧ (has_char CR c = false →
          stdout (invoke e' ActRead (request_id i)
            (disk (invoke e ActCreate data fs0))) = [response i c]).
Proof.
  intros Hcan Hc. destruct (create_spec e fs0 data c Hcan Hc) as (j & Hfree & ->).
  destruct Hcan as (He & Hd & _). exists (candidate e j). simpl.
  rewrite (read_created e e' fs0 j c He Hfree)
    by by apply resolve_candidate_dir.
  simpl. repeat split. intros Hcr. by rewrite universal_newlines_id.
Qed.

Lemma create_read_round_trip_witness :
  ∃ i, exit_code (invoke demo_env ActCreate
         (request_content "test content") demo_fs) = 0%Z
       ∧ stdout (invoke demo_env ActCreate
           (request_content "test content") demo_fs)
         = [response i "test content"]
       ∧ exit_code (invoke demo_env ActRead (request_id i)
           (disk (invoke demo_env ActCreate
              (request_content "test content") demo_fs))) = 0%Z
       ∧ stdout (invoke demo_env ActRead (request_id i)
           (disk (invoke demo_env ActCreate
              (request_content "test content") demo_fs)))
         = [response i (universal_newlines "test content")]
       ∧ (has_char CR "test content" = false →
          stdout (invoke demo_env ActRead (request_id i)
            (disk (invoke demo_env ActCreate
               (request_content "test content") demo_fs)))
          = [response i "test content"]).
Proof.
  apply (create_read_round_trip demo_env demo_env demo_fs
           (request_content "test content") "test content").
  - apply demo_can_create.
  - reflexivity.
Defined.

(** C2 fails as stated: the content ["a\rb"] is written as it is and answered
    by the create, and the read of the file answers ["a\nb"]. *)
Lemma create_read_carriage_return :
  exit_code (invoke demo_env ActCreate (request_content cr_text) demo_fs) = 0%Z
  ∧ stdout (invoke demo_env ActCreate (request_content cr_text) demo_fs)
    = [response "/tmp/tmpaaaaaaaa" cr_text]
  ∧ stdout (invoke demo_env ActRead (request_id "/tmp/tmpaaaaaaaa")
      (disk (invoke demo_env ActCreate (request_content cr_text) demo_fs)))
    = [response "/tmp/tmpaaaaaaaa" lf_text]
  ∧ lf_text ≠ cr_text.
Proof.
  split; [vm_compute; reflexivity|]. split; [vm_compute; reflexivity|].
  split; [vm_compute; reflexivity|done].
Qed.

(** C8. A create whose request has no [input], or an [input] without
    [content], succeeds, answers the empty string as [content], and leaves a
    resource holding the empty string. *)
Theorem create_default_content (e : env) (fs0 : gmap (list string) node)
    (data : json) :
  can_create e fs0 → lacks_content data →
  ∃ i, exit_code (invoke e ActCreate data fs0) = 0%Z
       ∧ stdout (invoke e ActCreate data fs0) = [response i ""]
       ∧ os_stat e (disk (invoke e ActCreate data fs0)) (parse_path i)
         = inr (File "").
Proof.
  intros Hcan (kvs & -> & Hin).
  assert (content_of (JObj kvs) = inr (JStr "")) as Hc.
  { unfold content_of. simpl.
    destruct Hin as [-> | (ikvs & -> & Hik)]; [done|]. simpl. by rewrite Hik. }
  destruct (create_spec e fs0 (JObj kvs) "" Hcan Hc) as (j & Hfree & ->).
  destruct Hcan as (He & Hd & _). exists (candidate e j). simpl.
  repeat split. unfold os_stat.
  assert (resolve e (<[tmp_key e j := File ""]> fs0)
            (parse_path (candidate e j)) = inr (tmp_key e j)) as ->.
  { pose proof (resolve_candidate_dir e e fs0 j He Hd) as Hr.
    unfold resolve in *.
    destruct (embedded_null (parse_path (candidate e j))); [done|].
    eapply walk_mono; [|exact Hr]. intros d Hdd.
    apply dirs_insert_file; [by rewrite Hfree | exact Hdd]. }
  by rewrite lookup_insert_eq.
Qed.

Lemma create_default_content_witness :
  ∃ i, exit_code (invoke demo_env ActCreate (JObj []) demo_fs) = 0%Z
       ∧ stdout (invoke demo_env ActCreate (JObj []) demo_fs)
         = [response i ""]
       ∧ os_stat demo_env (disk (invoke demo_env ActCreate (JObj []) demo_fs))
           (parse_path i) = inr (File "").
Proof.
  apply (create_default_content demo_env demo_fs (JObj [])).
  - apply demo_can_create.
  - exists []. split; [reflexivity|]. left. reflexivity.
Defined.

(** The same with an [input] that is there and holds no [content]. *)
Example create_empty_input :
  stdout (invoke demo_env ActCreate (JObj [("input", JObj [])]) demo_fs)
  = [response "/tmp/tmpaaaaaaaa" ""].
Proof. vm_compute. reflexivity. Qed.

(** ** Create, delete, read *)

(** C5. After a create that succeeded and a delete of the [id] it answered,
    a read of that [id] exits with code 22: the delete has removed the
    resource. *)
Theorem create_delete_read (e e1 e2 : env) (fs0 : gmap (list string) node)
    (data : json) (i c : string) :
  env_ok e →
  exit_code (invoke e ActCreate data fs0) = 0%Z →
  stdout (invoke e ActCreate data fs0) = [response i c] →
  exit_code (invoke e1 ActDelete (request_id i)
    (disk (invoke e ActCreate data fs0))) = 0%Z
  ∧ exit_code (invoke e2 ActRead (request_id i)
      (disk (invoke e1 ActDelete (request_id i)
         (disk (invoke e ActCreate data fs0))))) = 22%Z.
Proof.
  intros He Hex.
  destruct (create_success_inv e fs0 data He Hex)
    as (j & c' & Hc & Hfree & Hr & ->).
  simpl. intros [= <- <-].
  assert (root (parse_path (candidate e j)) ≠ "") as Habs
    by by rewrite parse_candidate.
  assert (resolve e1 (<[tmp_key e j := File c']> fs0)
            (parse_path (candidate e j)) = inr (tmp_key e j)) as Hr1.
  { rewrite (resolve_abs e1 e) by done. unfold resolve in *.
    destruct (embedded_null (parse_path (candidate e j))); [done|].
    eapply walk_mono; [|exact Hr]. intros d Hd.
    apply dirs_insert_file; [by rewrite Hfree | exact Hd]. }
  destruct (delete_file_or_missing e1 (<[tmp_key e j := File c']> fs0)
    (request_id (candidate e j)) (candidate e j)) as (fs2 & -> & Hgone).
  - reflexivity.
  - unfold file_or_missing, os_stat. by rewrite Hr1, lookup_insert_eq.
  - simpl. split; [done|].
    rewrite (read_absent e2 fs2 _ (candidate e j)); [done|reflexivity|].
    unfold present, os_stat in *. by rewrite (resolve_abs e2 e1).
Qed.

Lemma create_delete_read_witness :
  exit_code (invoke demo_env ActDelete (request_id "/tmp/tmpaaaaaaaa")
    (disk (invoke demo_env ActCreate (request_content "x") demo_fs))) = 0%Z
  ∧ exit_code (invoke demo_env ActRead (request_id "/tmp/tmpaaaaaaaa")
      (disk (invoke demo_env ActDelete (request_id "/tmp/tmpaaaaaaaa")
         (disk (invoke demo_env ActCreate (request_content "x") demo_fs)))))
    = 22%Z.
Proof.
  apply (create_delete_read demo_env demo_env demo_env demo_fs
           (request_content "x") "/tmp/tmpaaaaaaaa" "x").
  - apply demo_env_ok.
  - vm_compute. reflexivity.
  - vm_compute. reflexivity.
Defined.

(** ** Several creates at once: the invariant *)

Lemma insert_keeps (fs0 : gmap (list string) node) (k k' : list string)
    (v : node) :
  is_Some (fs0 !! k') → is_Some (<[k := v]> fs0 !! k').
Proof.
  intros Hk. apply lookup_insert_is_Some.
  destruct (decide (k = k')); auto.
Qed.

(** A system call of a create keeps what is on the disk, and the file the
    process holds afterwards is the one it held or one it has just made. *)
Lemma step_held (e : env) (st st' : stage)
    (fs0 fs1 : gmap (list string) node) :
  env_ok e → step e st fs0 = (st', fs1) →
  (∀ k, is_Some (fs0 !! k) → is_Some (fs1 !! k))
  ∧ (∀ p, held st' = Some p →
       held st = Some p
       ∨ ∃ j, p = parse_path (candidate e j) ∧ fs0 !! tmp_key e j = None
              ∧ is_Some (fs1 !! tmp_key e j)).
Proof.
  intros He. destruct st as [c n i|c p|c p|p c|err]; simpl.
  - destruct n as [|n]; [by intros [= <- <-]|].
    unfold os_open_excl.
    destruct (resolve e fs0 (parse_path (candidate e i))) as [err|k] eqn:Hr.
    { by destruct err; intros [= <- <-]. }
    pose proof (resolve_candidate e e fs0 i k He Hr) as ->.
    destruct (fs0 !! tmp_key e i) eqn:Hk; [by intros [= <- <-]|].
    rewrite names_entry_candidate by done. intros [= <- <-]. split.
    + intros k. apply insert_keeps.
    + intros p [= <-]. right. exists i. by rewrite lookup_insert_eq.
  - destruct c as [|b|n|t|l|kvs]; try by intros [= <- <-].
    unfold os_write. destruct (resolve e fs0 p) as [err|k];
      [by intros [= <- <-]|].
    destruct (fs0 !! k) as [[]|]; try by intros [= <- <-].
    + intros [= <- <-]. split; [intros k'; apply insert_keeps | auto].
    + destruct (names_entry p); intros [= <- <-]; [|done].
      split; [intros k'; apply insert_keeps | auto].
  - intros [= <- <-]. auto.
  - intros [= <- <-]. auto.
  - intros [= <- <-]. auto.
Qed.

(** Established: no process holds a file when it starts. *)
Lemma inv_start (reqs : list (env * json)) (fs0 : gmap (list string) node) :
  Forall (λ r, env_ok r.1) reqs → inv (start_all reqs, fs0).
Proof.
  intros Hok.
  assert (∀ i e st, start_all reqs !! i = Some (e, st) →
            env_ok e ∧ held st = None) as Hs.
  { intros i e st. unfold start_all. rewrite list_lookup_fmap.
    destruct (reqs !! i) as [[e' d]|] eqn:Hi; simpl; [|done].
    intros [= <- <-]. split.
    - by apply (Forall_lookup_1 _ _ _ _ Hok Hi).
    - unfold start. destruct (dict_get d "input" (JObj [])); [done|].
      by destruct (dict_get _ "content" (JStr "")). }
  split; [|split]; simpl.
  - intros i e st Hi. by destruct (Hs i e st Hi).
  - intros i e st p Hi Hp. destruct (Hs i e st Hi) as [_ Hn]. congruence.
  - intros i1 i2 e1 e2 st1 st2 p _ Hi _ Hp. destruct (Hs _ _ _ Hi) as [_ Hn].
    congruence.
Qed.

(** Preserved by every system call of every process. *)
Lemma inv_step (i : nat) (s : list (env * stage) * gmap (list string) node) :
  inv s → inv (sys_step i s).
Proof.
  destruct s as [ps fs0]. intros (Hok & Hheld & Hdist). unfold sys_step. simpl.
  destruct (ps !! i) as [[e st]|] eqn:Hi; [|done].
  destruct (step e st fs0) as [st' fs1] eqn:Hst.
  destruct (step_held e st st' fs0 fs1 (Hok i e st Hi) Hst) as [Hmono Hnew].
  simpl in *.
  assert (∀ i' e' st'' p, i' ≠ i → ps !! i' = Some (e', st'') →
            held st'' = Some p → held st' = Some p → False) as Hfresh.
  { intros i' e' st'' p Hne Hi' Hp' Hp.
    destruct (Hnew p Hp) as [Hold | (j & -> & Hnone & _)].
    - by apply (Hdist i' i e' e st'' st p).
    - destruct (Hheld i' e' st'' _ Hi' Hp') as (j' & Heq & Hsome).
      rewrite !parse_candidate in Heq by eauto. injection Heq as Heq.
      rewrite <- Heq, Hnone in Hsome. by destruct Hsome. }
  split; [|split]; simpl.
  - intros i' e' st'' [(<- & [= <- <-] & _) | [_ Hi']]%list_lookup_insert_Some;
      eauto.
  - intros i' e' st'' p
      [(<- & [= <- <-] & _) | [_ Hi']]%list_lookup_insert_Some Hp.
    + destruct (Hnew p Hp) as [Hold | (j & -> & _ & Hsome)]; [|by eauto].
      destruct (Hheld i e st p Hi Hold) as (j & -> & Hsome). eauto.
    + destruct (Hheld i' e' st'' p Hi' Hp) as (j & -> & Hsome). eauto.
  - intros i1 i2 e1 e2 st1 st2 p Hne
      [(<- & [= <- <-] & _) | [Hn1 Hi1]]%list_lookup_insert_Some
      [(<- & [= <- <-] & _) | [Hn2 Hi2]]%list_lookup_insert_Some Hp1 Hp2.
    + done.
    + by apply (Hfresh i2 e2 st2 p).
    + by apply (Hfresh i1 e1 st1 p).
    + by apply (Hdist i1 i2 e1 e2 st1 st2 p).
Qed.

Lemma inv_run (sched : list nat)
    (s : list (env * stage) * gmap (list string) node) :
  inv s → inv (run_schedule sched s).
Proof.
  revert s. induction sched as [|i sched IH]; intros s Hs; [done|].
  simpl. by apply IH, inv_step.
Qed.

(** Used: two processes that have returned have printed different [id]s. *)
Lemma inv_distinct (s : list (env * stage) * gmap (list string) node)
    (i1 i2 : nat) (e1 e2 : env) (p1 p2 : PurePath) (c1 c2 : json) :
  inv s → i1 ≠ i2 →
  s.1 !! i1 = Some (e1, Returned p1 c1) →
  s.1 !! i2 = Some (e2, Returned p2 c2) →
  py_str p1 ≠ py_str p2.
Proof.
  intros (Hok & Hheld & Hdist) Hne H1 H2 Heq.
  destruct (Hheld _ _ _ p1 H1 eq_refl) as (j1 & -> & _).
  destruct (Hheld _ _ _ p2 H2 eq_refl) as (j2 & -> & _).
  pose proof (Hok _ _ _ H1) as He1. pose proof (Hok _ _ _ H2) as He2.
  apply (Hdist i1 i2 _ _ _ _ (parse_path (candidate e1 j1)) Hne H1 H2);
    [done|]. simpl. f_equal.
  rewrite !parse_candidate in * by done. f_equal. simpl in Heq.
  symmetry. by apply abs_str_inj; [apply tmp_key_plain..|].
Qed.

(** ** Creates one after the other *)

Lemma os_open_excl_keeps (e : env) (fs0 fs1 : gmap (list string) node)
    (p : PurePath) (k : list string) :
  os_open_excl e fs0 p = inr fs1 → is_Some (fs0 !! k) → is_Some (fs1 !! k).
Proof.
  unfold os_open_excl. destruct (resolve e fs0 p) as [|k']; [done|].
  destruct (fs0 !! k'); [done|]. destruct (names_entry p); [|done].
  intros [= <-]. apply insert_keeps.
Qed.

Lemma os_write_keeps (e : env) (fs0 fs1 : gmap (list string) node)
    (p : PurePath) (t : string) (k : list string) :
  os_write e fs0 p t = inr fs1 → is_Some (fs0 !! k) → is_Some (fs1 !! k).
Proof.
  unfold os_write. destruct (resolve e fs0 p) as [|k']; [done|].
  destruct (fs0 !! k') as [[]|]; [| done |].
  - intros [= <-]. apply insert_keeps.
  - destruct (names_entry p); [|done]. intros [= <-]. apply insert_keeps.
Qed.

Lemma mkstemp_inner_keeps (e : env) (fs0 fs1 : gmap (list string) node)
    (n i0 : nat) (name : string) (k : list string) :
  mkstemp_inner e n i0 fs0 = inr (name, fs1) →
  is_Some (fs0 !! k) → is_Some (fs1 !! k).
Proof.
  revert i0. induction n as [|n IH]; intros i0; simpl; [done|].
  destruct (os_open_excl e fs0 (parse_path (candidate e i0))) as [err|fs']
    eqn:Ho.
  - destruct err; try done. apply IH.
  - intros [= _ <-]. by eapply os_open_excl_keeps.
Qed.

(** A create removes nothing, whether it succeeds or fails. *)
Lemma create_keeps (e : env) (fs0 : gmap (list string) node) (data : json)
    (k : list string) :
  is_Some (fs0 !! k) → is_Some (disk (invoke e ActCreate data fs0) !! k).
Proof.
  intros Hk. run.
  destruct (dict_get data "input" (JObj [])) as [|input]; simpl; [done|].
  destruct (dict_get input "content" (JStr "")) as [|c]; simpl; [done|].
  unfold NamedTemporaryFile. simpl.
  destruct (mkstemp_inner e (TMP_MAX e) 0 fs0) as [|[name fs1]] eqn:Hmk;
    simpl; [done|].
  pose proof (mkstemp_inner_keeps _ _ _ _ _ _ k Hmk Hk) as Hk1.
  destruct c as [|b|n|t|l|kvs]; simpl; try done.
  destruct (os_write e fs1 (parse_path name) t) as [|fs2] eqn:Hw; simpl;
    [done|].
  by eapply os_write_keeps.
Qed.

(** Only a create that returns has printed. *)
Lemma create_printed_success (e : env) (fs0 : gmap (list string) node)
    (data : json) (d : json) :
  stdout (invoke e ActCreate data fs0) = [d] →
  exit_code (invoke e ActCreate data fs0) = 0%Z.
Proof.
  run.
  destruct (dict_get data "input" (JObj [])) as [|input]; simpl; [done|].
  destruct (dict_get input "content" (JStr "")) as [|c]; simpl; [done|].
  unfold NamedTemporaryFile. simpl.
  destruct (mkstemp_inner e (TMP_MAX e) 0 fs0) as [|[name fs1]] eqn:Hmk;
    simpl; [done|].
  destruct c as [|b|n|t|l|kvs]; simpl; try done.
  by destruct (os_write e fs1 (parse_path name) t) as [|fs2].
Qed.

(** The [id] a create answers names a file that was not there before. *)
Lemma creates_fresh (reqs : list (env * json))
    (fs0 : gmap (list string) node) (n : nat) (o : outcome) (i c : string) :
  Forall (λ r, env_ok r.1) reqs →
  creates reqs fs0 !! n = Some o → stdout o = [response i c] →
  ∃ k, i = abs_str k ∧ forallb plain_name k = true ∧ fs0 !! k = None.
Proof.
  intros Hok. revert fs0 n.
  induction Hok as [|[e d] reqs He Hok IH]; intros fs0 n; simpl; [done|].
  destruct n as [|n]; simpl.
  - intros [= <-] Hout.
    destruct (create_success_inv e fs0 d He (create_printed_success _ _ _ _ Hout))
      as (j & c' & _ & Hfree & _ & Heq).
    rewrite Heq in Hout. injection Hout as <- <-.
    exists (tmp_key e j). split; [done|]. split; [by apply tmp_key_plain|done].
  - intros Hn Hout. destruct (IH _ _ Hn Hout) as (k & -> & Hpl & Hnone).
    exists k. split; [done|]. split; [done|].
    destruct (fs0 !! k) eqn:Hk; [|done].
    assert (is_Some (disk (invoke e ActCreate d fs0) !! k)) as [? Hs]
      by by apply create_keeps.
    congruence.
Qed.

Lemma creates_distinct_lt (reqs : list (env * json))
    (fs0 : gmap (list string) node) (n1 n2 : nat) (o1 o2 : outcome)
    (i1 i2 c1 c2 : string) :
  Forall (λ r, env_ok r.1) reqs → n1 < n2 →
  creates reqs fs0 !! n1 = Some o1 → creates reqs fs0 !! n2 = Some o2 →
  stdout o1 = [response i1 c1] → stdout o2 = [response i2 c2] → i1 ≠ i2.
Proof.
  intros Hok. revert fs0 n1 n2.
  induction Hok as [|[e d] reqs He Hok IH]; intros fs0 n1 n2 Hlt; simpl;
    [done|].
  destruct n2 as [|n2]; [lia|]. destruct n1 as [|n1]; simpl.
  - intros [= <-] H2 Hout1 Hout2.
    destruct (create_success_inv e fs0 d He
                (create_printed_success _ _ _ _ Hout1))
      as (j & c' & _ & Hfree & _ & Heq).
    rewrite Heq in Hout1, H2. injection Hout1 as <- <-. simpl in H2.
    destruct (creates_fresh _ _ _ _ _ _ Hok H2 Hout2) as (k & -> & Hpl & Hnone).
    intros Hid. apply abs_str_inj in Hid; [|by apply tmp_key_plain|done].
    subst k. by rewrite lookup_insert_eq in Hnone.
  - apply IH. lia.
Qed.

(** ** A process alone is [handle_create] *)

Lemma run_alone_S (fuel : nat)
    (s : list (env * stage) * gmap (list string) node) :
  run_schedule (replicate (S fuel) 0) s
  = run_schedule (replicate fuel 0) (sys_step 0 s).
Proof. done. Qed.

Lemma sys_step_alone (e : env) (st : stage) (fs0 : gmap (list string) node) :
  sys_step 0 ([(e, st)], fs0) = ([(e, (step e st fs0).1)], (step e st fs0).2).
Proof. unfold sys_step. simpl. by destruct (step e st fs0). Qed.

Lemma run_alone_over (e : env) (st : stage) (fs0 : gmap (list string) node)
    (fuel : nat) :
  step e st fs0 = (st, fs0) →
  run_schedule (replicate fuel 0) ([(e, st)], fs0) = ([(e, st)], fs0).
Proof.
  intros Hst. induction fuel as [|fuel IH]; [done|].
  by rewrite run_alone_S, sys_step_alone, Hst.
Qed.

Lemma run_alone_trying (e : env) (c : json) (n i fuel : nat)
    (fs0 : gmap (list string) node) :
  (n + 2 ≤ fuel)%nat →
  run_schedule (replicate fuel 0) ([(e, Trying c n i)], fs0) =
  ([(e, (finish e c (mkstemp_inner e n i fs0) fs0).1)],
   (finish e c (mkstemp_inner e n i fs0) fs0).2).
Proof.
  revert i fuel. induction n as [|n IH]; intros i fuel Hfuel.
  - destruct fuel as [|fuel]; [lia|].
    rewrite run_alone_S, sys_step_alone. by apply run_alone_over.
  - destruct fuel as [|fuel]; [lia|].
    rewrite run_alone_S, sys_step_alone.
    change (mkstemp_inner e (S n) i fs0) with
      (match os_open_excl e fs0 (parse_path (candidate e i)) with
       | inl FileExistsError => mkstemp_inner e n (S i) fs0
       | inl err => inl err
       | inr fs1 => inr (candidate e i, fs1)
       end).
    change (step e (Trying c (S n) i) fs0) with
      (match os_open_excl e fs0 (parse_path (candidate e i)) with
       | inl FileExistsError => (Trying c n (S i), fs0)
       | inl err => (Raised err, fs0)
       | inr fs1 => (Opened c (parse_path (candidate e i)), fs1)
       end).
    destruct (os_open_excl e fs0 (parse_path (candidate e i))) as [err|fs1].
    + destruct err; try by apply run_alone_over.
      apply IH. lia.
    + destruct fuel as [|[|fuel]]; [lia..|]. cbn [fst snd].
      rewrite run_alone_S, sys_step_alone.
      unfold finish.
      destruct c as [|b|m|t|l|kvs]; try by apply run_alone_over.
      change (step e (Opened (JStr t) (parse_path (candidate e i))) fs1) with
        (match os_write e fs1 (parse_path (candidate e i)) t with
         | inl err => (Raised err, fs1)
         | inr fs2 => (Written (JStr t) (parse_path (candidate e i)), fs2)
         end).
      destruct (os_write e fs1 (parse_path (candidate e i)) t) as [err|fs2];
        cbn [fst snd].
      * by apply run_alone_over.
      * rewrite run_alone_S, sys_step_alone. by apply run_alone_over.
Qed.

(** Scheduled alone until it is over, the process of the interleavings does
    what [handle_create] does: same exit code, same output, same disk. *)
Lemma alone_is_invoke (e : env) (data : json)
    (fs0 : gmap (list string) node) :
  ∃ st, run_schedule (replicate (TMP_MAX e + 2) 0) ([(e, start e data)], fs0)
        = ([(e, st)], disk (invoke e ActCreate data fs0))
        ∧ exited st = Some (exit_code (invoke e ActCreate data fs0))
        ∧ printed st = stdout (invoke e ActCreate data fs0).
Proof.
  unfold start, invoke, main, handle_create, mbind, M_bind, lift.
  destruct (dict_get data "input" (JObj [])) as [err|input].
  { exists (Raised err). rewrite run_alone_over by done. by destruct err. }
  destruct (dict_get input "content" (JStr "")) as [err|c].
  { exists (Raised err). rewrite run_alone_over by done. by destruct err. }
  rewrite run_alone_trying by lia. unfold NamedTemporaryFile, finish.
  simpl.
  destruct (mkstemp_inner e (TMP_MAX e) 0 fs0) as [err|[name fs1]].
  { exists (Raised err). by destruct err. }
  unfold write_text, raise, syscall, print. simpl.
  destruct c as [|b|m|t|l|kvs]; simpl; try by exists (Raised TypeError).
  destruct (os_write e fs1 (parse_path name) t) as [err|fs2]; simpl.
  - exists (Raised err). by destruct err.
  - by exists (Returned (parse_path name) (JStr t)).
Qed.

(** ** Distinct [id]s *)

Lemma printed_returned (st : stage) (i : string) (c : json) :
  printed st = [JObj [("id", JStr i); ("content", c)]] →
  ∃ p, st = Returned p c ∧ py_str p = i.
Proof. destruct st; simpl; try done. intros [= <- <-]. eauto. Qed.

(** C6. N create invocations answer N pairwise distinct [id]s, when they
    run one after the other and when they run at once, their system calls
    interleaved in any order: two creates are never given the same path. *)
Theorem create_ids_distinct (reqs : list (env * json))
    (fs0 : gmap (list string) node) :
  Forall (λ r, env_ok r.1) reqs →
  (∀ n1 n2 o1 o2 i1 i2 c1 c2, n1 ≠ n2 →
     creates reqs fs0 !! n1 = Some o1 → creates reqs fs0 !! n2 = Some o2 →
     stdout o1 = [response i1 c1] → stdout o2 = [response i2 c2] →
     i1 ≠ i2)
  ∧ (∀ sched n1 n2 e1 e2 st1 st2 i1 i2 c1 c2, n1 ≠ n2 →
       (run_schedule sched (start_all reqs, fs0)).1 !! n1 = Some (e1, st1) →
       (run_schedule sched (start_all reqs, fs0)).1 !! n2 = Some (e2, st2) →
       printed st1 = [JObj [("id", JStr i1); ("content", c1)]] →
       printed st2 = [JObj [("id", JStr i2); ("content", c2)]] →
       i1 ≠ i2).
Proof.
  intros Hok. split.
  - intros n1 n2 o1 o2 i1 i2 c1 c2 Hne H1 H2 Ho1 Ho2.
    destruct (decide (n1 < n2)) as [Hlt|Hge].
    + by apply (creates_distinct_lt reqs fs0 n1 n2 o1 o2 i1 i2 c1 c2).
    + apply not_eq_sym.
      apply (creates_distinct_lt reqs fs0 n2 n1 o2 o1 i2 i1 c2 c1); try done.
      lia.
  - intros sched n1 n2 e1 e2 st1 st2 i1 i2 c1 c2 Hne H1 H2
      (p1 & -> & <-)%printed_returned (p2 & -> & <-)%printed_returned.
    eapply inv_distinct; [|exact Hne|exact H1|exact H2].
    by apply inv_run, inv_start.
Qed.

Lemma demo_requests_ok : Forall (λ r, env_ok r.1) demo_requests.
Proof. repeat constructor; apply demo_env_ok. Qed.

Lemma create_ids_distinct_witness :
  (∀ n1 n2 o1 o2 i1 i2 c1 c2, n1 ≠ n2 →
     creates demo_requests demo_fs !! n1 = Some o1 →
     creates demo_requests demo_fs !! n2 = Some o2 →
     stdout o1 = [response i1 c1] → stdout o2 = [response i2 c2] →
     i1 ≠ i2)
  ∧ (∀ sched n1 n2 e1 e2 st1 st2 i1 i2 c1 c2, n1 ≠ n2 →
       (run_schedule sched (start_all demo_requests, demo_fs)).1 !! n1
       = Some (e1, st1) →
       (run_schedule sched (start_all demo_requests, demo_fs)).1 !! n2
       = Some (e2, st2) →
       printed st1 = [JObj [("id", JStr i1); ("content", c1)]] →
       printed st2 = [JObj [("id", JStr i2); ("content", c2)]] →
       i1 ≠ i2).
Proof.
  apply (create_ids_distinct demo_requests demo_fs).
  apply demo_requests_ok.
Defined.

(** The two creates do answer, one after the other and at once: here the
    second process finds the first name taken and takes the next. *)
Example creates_demo :
  map stdout (creates demo_requests demo_fs)
  = [[response "/tmp/tmpaaaaaaaa" "a"]; [response "/tmp/tmpbbbbbbbb" "b"]].
Proof. vm_compute. reflexivity. Qed.

Example run_schedule_demo :
  map (λ p, printed p.2)
    (run_schedule [0; 1; 1; 1; 0; 0; 1] (start_all demo_requests, demo_fs)).1
  = [[response "/tmp/tmpaaaaaaaa" "a"]; [response "/tmp/tmpbbbbbbbb" "b"]].
Proof. vm_compute. reflexivity. Qed.

(** * Further properties of the handlers *)

(** ** What each handler does, case by case *)

Lemma os_unlink_no_exit (e : env) (fs0 : gmap (list string) node)
    (p : PurePath) (n : Z) :
  os_unlink e fs0 p ≠ inl (SystemExit n).
Proof.
  unfold os_unlink. destruct (resolve e fs0 p) as [err|k] eqn:Hr.
  - intros [= ->]. by destruct (resolve_errors _ _ _ _ Hr) as [?|[?|?]].
  - by destruct (fs0 !! k) as [[]|].
Qed.

Lemma dict_get_error (d : json) (k : string) (v : json) (err : exn) :
  dict_get d k v = inl err → err = AttributeError.
Proof. destruct d; simpl; congruence. Qed.

Lemma content_of_error (data : json) (err : exn) :
  content_of data = inl err → err = AttributeError.
Proof.
  unfold content_of.
  destruct (dict_get data "input" (JObj [])) as [err'|input] eqn:Hin.
  - intros [= <-]. by eapply dict_get_error.
  - apply dict_get_error.
Qed.

Lemma read_outcome (e : env) (fs0 : gmap (list string) node) (data : json) :
  invoke e ActRead data fs0 =
  match dict_get data "id" JNull with
  | inr (JStr s) =>
      match os_stat e fs0 (parse_path s) with
      | inr (File t) =>
          {| exit_code := 0;
             stdout := [response (py_str (parse_path s)) (universal_newlines t)];
             disk := fs0 |}
      | inr Dir => failed fs0
      | inl _ => {| exit_code := 22; stdout := []; disk := fs0 |}
      end
  | _ => failed fs0
  end.
Proof.
  destruct (dict_get data "id" JNull) as [err|v] eqn:Hid.
  { pose proof (dict_get_error _ _ _ _ Hid) as ->. run. by rewrite Hid. }
  destruct v as [|b|n|s|l|kvs]; try (run; by rewrite Hid).
  destruct (os_stat e fs0 (parse_path s)) as [err|[t|]] eqn:Hst.
  - apply (read_absent e fs0 data s); [done|]. unfold present. by rewrite Hst.
  - unfold os_stat in Hst.
    destruct (resolve e fs0 (parse_path s)) as [|k] eqn:Hr; [done|].
    destruct (fs0 !! k) as [n|] eqn:Hk; [|done]. injection Hst as ->.
    by apply (read_resolved e fs0 data s t k).
  - run. rewrite Hid. simpl. rewrite Hst. simpl. unfold os_stat, os_read in *.
    destruct (resolve e fs0 (parse_path s)) as [|k] eqn:Hr; [done|].
    destruct (fs0 !! k) as [[]|] eqn:Hk; done.
Qed.

Lemma delete_outcome (e : env) (fs0 : gmap (list string) node) (data : json) :
  invoke e ActDelete data fs0 =
  match dict_get data "id" JNull with
  | inr (JStr s) =>
      match resolve e fs0 (parse_path s) with
      | inr k =>
          match fs0 !! k with
          | Some (File _) =>
              {| exit_code := 0; stdout := []; disk := delete k fs0 |}
          | Some Dir => failed fs0
          | None => {| exit_code := 0; stdout := []; disk := fs0 |}
          end
      | inl FileNotFoundError =>
          {| exit_code := 0; stdout := []; disk := fs0 |}
      | inl _ => failed fs0
      end
  | _ => failed fs0
  end.
Proof.
  destruct (dict_get data "id" JNull) as [err|v] eqn:Hid.
  { pose proof (dict_get_error _ _ _ _ Hid) as ->. run. by rewrite Hid. }
  run. rewrite Hid. simpl.
  destruct v as [|b|n|s|l|kvs]; simpl; try done.
  unfold os_unlink.
  destruct (resolve e fs0 (parse_path s)) as [err|k] eqn:Hr.
  - by destruct (resolve_errors _ _ _ _ Hr) as [->|[->| ->]].
  - by destruct (fs0 !! k) as [[]|].
Qed.

Lemma update_outcome (e : env) (fs0 : gmap (list string) node) (data : json) :
  invoke e ActUpdate data fs0 =
  match dict_get data "id" JNull, content_of data with
  | inr (JStr s), inr (JStr c) =>
      match os_write e fs0 (parse_path s) c with
      | inr fs1 =>
          {| exit_code := 0; stdout := [response (py_str (parse_path s)) c];
             disk := fs1 |}
      | inl _ => failed fs0
      end
  | _, _ => failed fs0
  end.
Proof.
  destruct (dict_get data "id" JNull) as [err|v] eqn:Hid.
  { pose proof (dict_get_error _ _ _ _ Hid) as ->. run. by rewrite Hid. }
  unfold content_of. run. rewrite Hid. simpl.
  destruct v as [|b|n|s|l|kvs]; simpl; try done.
  destruct (dict_get data "input" (JObj [])) as [err|input] eqn:Hin; simpl.
  { by pose proof (dict_get_error _ _ _ _ Hin) as ->. }
  destruct (dict_get input "content" (JStr "")) as [err|c] eqn:Hc; simpl.
  { by pose proof (dict_get_error _ _ _ _ Hc) as ->. }
  destruct c as [|b|n|c|l|kvs]; simpl; try done.
  pose proof (os_write_no_exit e fs0 (parse_path s) c) as Hne.
  destruct (os_write e fs0 (parse_path s) c) as [err|fs1]; simpl; [|done].
  destruct err; try done. by destruct (Hne code).
Qed.

Lemma create_outcome (e : env) (fs0 : gmap (list string) node) (data : json) :
  invoke e ActCreate data fs0 =
  match content_of data with
  | inr content =>
      match mkstemp_inner e (TMP_MAX e) 0 fs0 with
      | inr (name, fs1) =>
          match content with
          | JStr c =>
              match os_write e fs1 (parse_path name) c with
              | inr fs2 =>
                  {| exit_code := 0;
                     stdout := [response (py_str (parse_path name)) c];
                     disk := fs2 |}
              | inl _ => failed fs1
              end
          | _ => failed fs1
          end
      | inl _ => failed fs0
      end
  | inl _ => failed fs0
  end.
Proof.
  unfold content_of. run.
  destruct (dict_get data "input" (JObj [])) as [err|input] eqn:Hin; simpl.
  { by pose proof (dict_get_error _ _ _ _ Hin) as ->. }
  destruct (dict_get input "content" (JStr "")) as [err|content] eqn:Hc; simpl.
  { by pose proof (dict_get_error _ _ _ _ Hc) as ->. }
  unfold NamedTemporaryFile. simpl.
  pose proof (mkstemp_inner_no_exit e fs0 (TMP_MAX e) 0) as Hne.
  destruct (mkstemp_inner e (TMP_MAX e) 0 fs0) as [err|[name fs1]]; simpl.
  { destruct err; try done. by destruct (Hne code). }
  destruct content as [|b|n|c|l|kvs]; simpl; try done.
  pose proof (os_write_no_exit e fs1 (parse_path name) c) as Hne'.
  destruct (os_write e fs1 (parse_path name) c) as [err|fs2]; simpl; [|done].
  destruct err; try done. by destruct (Hne' code).
Qed.

(** ** Requests that are not as expected *)

(** X1. A read, update or delete whose request has no [id], or an [id] that
    is not a string, exits with code 1, prints nothing and leaves the disk as
    it was. *)
Theorem missing_id_fails (e : env) (fs0 : gmap (list string) node)
    (a : action) (data v : json) :
  a ≠ ActCreate → dict_get data "id" JNull = inr v → (∀ s, v ≠ JStr s) →
  invoke e a data fs0 = failed fs0.
Proof.
  intros Ha Hid Hv. destruct a; [done| | |].
  - rewrite read_outcome, Hid. destruct v; try done. by destruct (Hv s).
  - rewrite update_outcome, Hid. destruct v; try done. by destruct (Hv s).
  - rewrite delete_outcome, Hid. destruct v; try done. by destruct (Hv s).
Qed.

Lemma missing_id_fails_witness :
  invoke demo_env ActUpdate (request_content "new") demo_fs = failed demo_fs.
Proof.
  apply (missing_id_fails demo_env demo_fs ActUpdate (request_content "new")
           JNull).
  - discriminate.
  - reflexivity.
  - discriminate.
Defined.

(** X2. Whatever the action, a request that is not a JSON object (a list, a
    string, a number, [null]) exits with code 1, prints nothing and leaves
    the disk as it was. *)
Theorem not_an_object_fails (e : env) (fs0 : gmap (list string) node)
    (a : action) (data : json) :
  (∀ kvs, data ≠ JObj kvs) → invoke e a data fs0 = failed fs0.
Proof.
  intros Hd.
  assert (∀ k v, dict_get data k v = inl AttributeError) as Hget.
  { intros k v. destruct data; try done. by destruct (Hd kvs). }
  destruct a.
  - rewrite create_outcome. unfold content_of. by rewrite Hget.
  - by rewrite read_outcome, Hget.
  - by rewrite update_outcome, Hget.
  - by rewrite delete_outcome, Hget.
Qed.

Lemma not_an_object_fails_witness :
  invoke demo_env ActCreate (JArr [JStr "x"]) demo_fs = failed demo_fs.
Proof.
  apply (not_an_object_fails demo_env demo_fs ActCreate (JArr [JStr "x"])).
  discriminate.
Defined.

(** X3. An update whose content is not a string (or whose [input] is not an
    object) exits with code 1 and prints nothing, and the disk is as it was:
    the type of the content is checked before the file is opened, so the
    resource is not cut to nothing. *)
Theorem update_bad_content_keeps_disk (e : env)
    (fs0 : gmap (list string) node) (data : json) :
  (∀ c, content_of data ≠ inr (JStr c)) →
  invoke e ActUpdate data fs0 = failed fs0.
Proof.
  intros Hc. rewrite update_outcome.
  destruct (dict_get data "id" JNull) as [|[]]; try done.
  destruct (content_of data) as [|[]]; try done. by destruct (Hc s0).
Qed.

Lemma update_bad_content_keeps_disk_witness :
  invoke demo_env ActUpdate
    (JObj [("id", JStr "/home/f"); ("input", JObj [("content", JNum 5)])])
    demo_fs
  = failed demo_fs.
Proof.
  apply (update_bad_content_keeps_disk demo_env demo_fs
    (JObj [("id", JStr "/home/f"); ("input", JObj [("content", JNum 5)])])).
  discriminate.
Defined.

(** ** Read *)

(** X4. A read whose [id] names a directory exits with code 1, not 22, and
    prints nothing: the path exists, and reading it raises. *)
Theorem read_directory_fails (e : env) (fs0 : gmap (list string) node)
    (data : json) (s : string) :
  has_id data s → os_stat e fs0 (parse_path s) = inr Dir →
  invoke e ActRead data fs0 = failed fs0.
Proof. intros Hid Hst. by rewrite read_outcome, Hid, Hst. Qed.

Lemma read_directory_fails_witness :
  invoke demo_env ActRead (request_id "") demo_fs = failed demo_fs.
Proof.
  apply (read_directory_fails demo_env demo_fs (request_id "") "").
  - reflexivity.
  - vm_compute. reflexivity.
Defined.

(** X5. A read whose [id] names a regular file exits with code 0 and
    answers the path as pathlib writes it and the text of the file with every
    ["\r\n"] and every other ["\r"] turned into ["\n"]. *)
Theorem read_file (e : env) (fs0 : gmap (list string) node) (data : json)
    (s t : string) :
  has_id data s → os_stat e fs0 (parse_path s) = inr (File t) →
  invoke e ActRead data fs0 =
  {| exit_code := 0;
     stdout := [response (py_str (parse_path s)) (universal_newlines t)];
     disk := fs0 |}.
Proof. intros Hid Hst. by rewrite read_outcome, Hid, Hst. Qed.

Lemma read_file_witness :
  invoke demo_env ActRead (request_id "../home/./f") demo_fs =
  {| exit_code := 0;
     stdout := [response (py_str (parse_path "../home/./f"))
                  (universal_newlines "old")];
     disk := demo_fs |}.
Proof.
  apply (read_file demo_env demo_fs (request_id "../home/./f")
           "../home/./f" "old").
  - reflexivity.
  - vm_compute. reflexivity.
Defined.

(** ** Exit codes and output *)

(** X6. Exit code 22 means "not found" and nothing else: an invocation exits
    with code 22 exactly when it is a read whose [id] is a string naming a
    path at which nothing is found. Create, update and delete never exit
    with 22. *)
Theorem exit_22_iff_read_missing (e : env) (fs0 : gmap (list string) node)
    (a : action) (data : json) :
  exit_code (invoke e a data fs0) = 22%Z
  ↔ a = ActRead ∧ ∃ s, has_id data s ∧ present e fs0 (parse_path s) = false.
Proof.
  split.
  - destruct a.
    + rewrite create_outcome. destruct (content_of data) as [|c]; [done|].
      destruct (mkstemp_inner e (TMP_MAX e) 0 fs0) as [|[name fs1]]; [done|].
      destruct c; try done.
      by destruct (os_write e fs1 (parse_path name) s).
    + rewrite read_outcome. unfold has_id, present.
      destruct (dict_get data "id" JNull) as [|[]]; try done.
      destruct (os_stat e fs0 (parse_path s)) as [|[]] eqn:Hst; try done.
      intros _. split; [done|]. exists s. by rewrite Hst.
    + rewrite update_outcome.
      destruct (dict_get data "id" JNull) as [|[]]; try done.
      destruct (content_of data) as [|[]]; try done.
      by destruct (os_write e fs0 (parse_path s) s0).
    + rewrite delete_outcome.
      destruct (dict_get data "id" JNull) as [|[]]; try done.
      destruct (resolve e fs0 (parse_path s)) as [[]|k]; try done.
      by destruct (fs0 !! k) as [[]|].
  - intros (-> & s & Hid & Hp). by rewrite (read_absent e fs0 data s).
Qed.

(** X7. Nothing is printed unless the invocation succeeds: with a non-zero
    exit code the standard output is empty; a delete prints nothing; a
    create, read or update that exits with 0 has printed exactly one
    response. *)
Theorem output_discipline (e : env) (fs0 : gmap (list string) node)
    (a : action) (data : json) :
  (exit_code (invoke e a data fs0) ≠ 0%Z → stdout (invoke e a data fs0) = [])
  ∧ (a = ActDelete → stdout (invoke e a data fs0) = [])
  ∧ (exit_code (invoke e a data fs0) = 0%Z → a ≠ ActDelete →
     ∃ i c, stdout (invoke e a data fs0) = [response i c]).
Proof.
  destruct a.
  - rewrite create_outcome. destruct (content_of data) as [|c]; [done|].
    destruct (mkstemp_inner e (TMP_MAX e) 0 fs0) as [|[name fs1]]; [done|].
    destruct c; try done.
    destruct (os_write e fs1 (parse_path name) s); [done|].
    split; [done|]. split; [done|]. eauto.
  - rewrite read_outcome.
    destruct (dict_get data "id" JNull) as [|[]]; try done.
    destruct (os_stat e fs0 (parse_path s)) as [|[]]; try done.
    split; [done|]. split; [done|]. eauto.
  - rewrite update_outcome.
    destruct (dict_get data "id" JNull) as [|[]]; try done.
    destruct (content_of data) as [|[]]; try done.
    destruct (os_write e fs0 (parse_path s) s0); [done|].
    split; [done|]. split; [done|]. eauto.
  - rewrite delete_outcome.
    destruct (dict_get data "id" JNull) as [|[]]; try done.
    destruct (resolve e fs0 (parse_path s)) as [[]|k]; try done.
    by destruct (fs0 !! k) as [[]|].
Qed.

(** ** What an invocation changes on the disk *)

Lemma read_leaves_disk_eq (e : env) (fs0 : gmap (list string) node)
    (data : json) :
  disk (invoke e ActRead data fs0) = fs0.
Proof.
  rewrite read_outcome. destruct (dict_get data "id" JNull) as [|[]]; try done.
  by destruct (os_stat e fs0 (parse_path s)) as [|[]].
Qed.

Lemma resolve_insert_file (e : env) (fs0 : gmap (list string) node)
    (p : PurePath) (k k' : list string) (t : string) :
  resolve e fs0 p = inr k → fs0 !! k' ≠ Some Dir →
  resolve e (<[k' := File t]> fs0) p = inr k.
Proof.
  unfold resolve. destruct (embedded_null p); [done|]. intros Hr Hk.
  eapply walk_mono; [|exact Hr]. intros d Hd. by apply dirs_insert_file.
Qed.

Lemma resolve_delete_file (e : env) (fs0 : gmap (list string) node)
    (p : PurePath) (k k' : list string) :
  resolve e fs0 p = inr k → fs0 !! k' ≠ Some Dir →
  resolve e (delete k' fs0) p = inr k.
Proof.
  unfold resolve. destruct (embedded_null p); [done|]. intros Hr Hk.
  eapply walk_mono; [|exact Hr]. intros d Hd. by apply dirs_delete_file.
Qed.

Lemma os_write_made (e : env) (fs0 fs1 : gmap (list string) node)
    (p : PurePath) (c : string) :
  os_write e fs0 p c = inr fs1 →
  ∃ k, resolve e fs0 p = inr k ∧ fs0 !! k ≠ Some Dir
       ∧ (fs0 !! k = None → names_entry p = true)
       ∧ fs1 = <[k := File c]> fs0.
Proof.
  unfold os_write. destruct (resolve e fs0 p) as [|k]; [done|].
  destruct (fs0 !! k) as [[]|] eqn:Hk; [| done |].
  - intros [= <-]. exists k. by rewrite Hk.
  - destruct (names_entry p) eqn:Hn; [|done]. intros [= <-]. exists k.
    by rewrite Hk.
Qed.

Lemma mkstemp_inner_made (e : env) (fs0 fs1 : gmap (list string) node)
    (n i0 : nat) (name : string) :
  mkstemp_inner e n i0 fs0 = inr (name, fs1) →
  ∃ k, resolve e fs0 (parse_path name) = inr k ∧ fs0 !! k = None
       ∧ fs1 = <[k := File ""]> fs0.
Proof.
  revert i0. induction n as [|n IH]; intros i0; simpl; [done|].
  unfold os_open_excl.
  destruct (resolve e fs0 (parse_path (candidate e i0))) as [err|k] eqn:Hr.
  { destruct err; try done. apply IH. }
  destruct (fs0 !! k) eqn:Hk; [apply IH|].
  destruct (names_entry (parse_path (candidate e i0))); [|done].
  intros [= <- <-]. by exists k.
Qed.

(** A create leaves the disk as it was or adds one file to it. *)
Lemma create_disk (e : env) (fs0 : gmap (list string) node) (data : json) :
  disk (invoke e ActCreate data fs0) = fs0
  ∨ ∃ k t, fs0 !! k = None
           ∧ disk (invoke e ActCreate data fs0) = <[k := File t]> fs0.
Proof.
  rewrite create_outcome. destruct (content_of data) as [|c]; [by left|].
  destruct (mkstemp_inner e (TMP_MAX e) 0 fs0) as [|[name fs1]] eqn:Hmk;
    [by left|].
  destruct (mkstemp_inner_made _ _ _ _ _ _ Hmk) as (k & Hr & Hk & ->).
  right. exists k.
  destruct c as [|b|n|c|l|kvs]; try by exists "".
  destruct (os_write e (<[k := File ""]> fs0) (parse_path name) c)
    as [|fs2] eqn:Hw; [by exists ""|].
  destruct (os_write_made _ _ _ _ _ Hw) as (k' & Hr' & _ & _ & ->).
  rewrite (resolve_insert_file e fs0 _ k k "") in Hr' by by rewrite ?Hk.
  injection Hr' as <-. exists c. by rewrite insert_insert_eq.
Qed.

(** Any invocation leaves the disk as it was, or writes one regular file, or
    removes one, at a path that was not a directory. *)
Lemma disk_change (e : env) (fs0 : gmap (list string) node) (a : action)
    (data : json) :
  disk (invoke e a data fs0) = fs0
  ∨ ∃ k, fs0 !! k ≠ Some Dir
         ∧ (disk (invoke e a data fs0) = delete k fs0
            ∨ ∃ t, disk (invoke e a data fs0) = <[k := File t]> fs0).
Proof.
  destruct a.
  - destruct (create_disk e fs0 data) as [?|(k & t & Hk & ?)]; [by left|].
    right. exists k. split; [by rewrite Hk | eauto].
  - left. apply read_leaves_disk_eq.
  - rewrite update_outcome.
    destruct (dict_get data "id" JNull) as [|[]]; try by left.
    destruct (content_of data) as [|[]]; try by left.
    destruct (os_write e fs0 (parse_path s) s0) as [|fs1] eqn:Hw; [by left|].
    destruct (os_write_made _ _ _ _ _ Hw) as (k & _ & Hk & _ & ->).
    right. exists k. eauto.
  - rewrite delete_outcome.
    destruct (dict_get data "id" JNull) as [|[]]; try by left.
    destruct (resolve e fs0 (parse_path s)) as [[]|k]; try by left.
    destruct (fs0 !! k) as [[]|] eqn:Hk; try by left.
    right. exists k. split; [by rewrite Hk | by left].
Qed.

(** X8. An invocation changes at most one path of the file system, and
    never a directory: every other path holds afterwards what it held
    before, and the directories are the same before and after. *)
Theorem one_path_changed (e : env) (fs0 : gmap (list string) node)
    (a : action) (data : json) :
  (∃ k, ∀ k', k' ≠ k → disk (invoke e a data fs0) !! k' = fs0 !! k')
  ∧ (∀ k, disk (invoke e a data fs0) !! k = Some Dir ↔ fs0 !! k = Some Dir).
Proof.
  destruct (disk_change e fs0 a data) as [-> | (k & Hk & [-> | [t ->]])].
  - split; [by exists [] | done].
  - split.
    + exists k. intros k' Hne. by rewrite lookup_delete_ne.
    + intros k'. destruct (decide (k = k')) as [<-|Hne].
      * rewrite lookup_delete_eq. split; [done | by intros ?].
      * by rewrite lookup_delete_ne.
  - split.
    + exists k. intros k' Hne. by rewrite lookup_insert_ne.
    + intros k'. destruct (decide (k = k')) as [<-|Hne].
      * rewrite lookup_insert_eq. split; [done | by intros ?].
      * by rewrite lookup_insert_ne.
Qed.

(** X9. A create overwrites nothing: every path that held something before
    the create holds the same afterwards, whether the create succeeds or
    fails. *)
Theorem create_overwrites_nothing (e : env) (fs0 : gmap (list string) node)
    (data : json) (k : list string) :
  is_Some (fs0 !! k) → disk (invoke e ActCreate data fs0) !! k = fs0 !! k.
Proof.
  intros Hk. destruct (create_disk e fs0 data) as [-> | (k' & t & Hk' & ->)];
    [done|].
  rewrite lookup_insert_ne; [done|]. intros ->. rewrite Hk' in Hk.
  by destruct Hk.
Qed.

Lemma create_overwrites_nothing_witness :
  disk (invoke demo_env ActCreate (request_content "x") demo_fs_full)
    !! ["tmp"; "tmpaaaaaaaa"]
  = demo_fs_full !! ["tmp"; "tmpaaaaaaaa"].
Proof.
  apply (create_overwrites_nothing demo_env demo_fs_full (request_content "x")
           ["tmp"; "tmpaaaaaaaa"]).
  vm_compute. eexists. reflexivity.
Defined.

(** ** Update, composed *)

(** X10. The last writer wins: after an update of a path that succeeded, a
    second update of the same path ends exactly as it would have without the
    first (same exit code, same response, same disk). With the same request
    twice, update is idempotent. *)
Theorem update_last_writer_wins (e : env) (fs0 : gmap (list string) node)
    (data1 data2 : json) (s c2 : string) :
  has_id data1 s → has_id data2 s → content_of data2 = inr (JStr c2) →
  exit_code (invoke e ActUpdate data1 fs0) = 0%Z →
  invoke e ActUpdate data2 (disk (invoke e ActUpdate data1 fs0))
  = invoke e ActUpdate data2 fs0.
Proof.
  unfold has_id. intros Hid1 Hid2 Hc2. rewrite !update_outcome, Hid1, Hid2, Hc2.
  destruct (content_of data1) as [|[]]; try done.
  destruct (os_write e fs0 (parse_path s) s0) as [|fs1] eqn:Hw; [done|].
  intros _. simpl.
  destruct (os_write_made _ _ _ _ _ Hw) as (k & Hr & Hk & Hn & ->).
  destruct (write_resolved e fs0 (parse_path s) k c2 Hr Hk Hn) as (-> & _).
  destruct (write_resolved e (<[k := File s0]> fs0) (parse_path s) k c2)
    as (-> & _).
  - by apply resolve_insert_file.
  - by rewrite lookup_insert_eq.
  - by rewrite lookup_insert_eq.
  - by rewrite insert_insert_eq.
Qed.

Lemma update_last_writer_wins_witness :
  invoke demo_env ActUpdate (request_update "f" "second")
    (disk (invoke demo_env ActUpdate (request_update "f" "first") demo_fs))
  = invoke demo_env ActUpdate (request_update "f" "second") demo_fs.
Proof.
  apply (update_last_writer_wins demo_env demo_fs
           (request_update "f" "first") (request_update "f" "second")
           "f" "second").
  - reflexivity.
  - reflexivity.
  - reflexivity.
  - vm_compute. reflexivity.
Defined.

(** X11. A read that follows a successful update of the same [id] succeeds
    and answers the content written, newlines normalised, under the same
    [id] as the update answered. *)
Theorem update_then_read (e : env) (fs0 : gmap (list string) node)
    (data rd : json) (s c : string) :
  has_id data s → has_id rd s → content_of data = inr (JStr c) →
  exit_code (invoke e ActUpdate data fs0) = 0%Z →
  invoke e ActRead rd (disk (invoke e ActUpdate data fs0)) =
  {| exit_code := 0;
     stdout := [response (py_str (parse_path s)) (universal_newlines c)];
     disk := disk (invoke e ActUpdate data fs0) |}.
Proof.
  unfold has_id. intros Hid Hrd Hc. rewrite update_outcome, Hid, Hc.
  destruct (os_write e fs0 (parse_path s) c) as [|fs1] eqn:Hw; [done|].
  intros _. simpl.
  destruct (os_write_made _ _ _ _ _ Hw) as (k & Hr & Hk & Hn & ->).
  destruct (write_resolved e fs0 (parse_path s) k c Hr Hk Hn) as (_ & _ & Hst).
  by rewrite read_outcome, Hrd, Hst.
Qed.

Lemma update_then_read_witness :
  invoke demo_env ActRead (request_id "/home/g")
    (disk (invoke demo_env ActUpdate (request_update "/home/g" cr_text)
             demo_fs)) =
  {| exit_code := 0;
     stdout := [response (py_str (parse_path "/home/g"))
                  (universal_newlines cr_text)];
     disk := disk (invoke demo_env ActUpdate
                     (request_update "/home/g" cr_text) demo_fs) |}.
Proof.
  apply (update_then_read demo_env demo_fs (request_update "/home/g" cr_text)
           (request_id "/home/g") "/home/g" cr_text).
  - reflexivity.
  - reflexivity.
  - reflexivity.
  - vm_compute. reflexivity.
Defined.

(** ** Delete, composed *)

(** X12. After a delete that exits with code 0, nothing is left at the path:
    a second delete of the same [id] exits with 0 again and changes nothing,
    and a read of it exits with 22. *)
Theorem delete_then_gone (e : env) (fs0 : gmap (list string) node)
    (data rd : json) (s : string) :
  has_id data s → has_id rd s →
  exit_code (invoke e ActDelete data fs0) = 0%Z →
  invoke e ActDelete data (disk (invoke e ActDelete data fs0))
  = {| exit_code := 0; stdout := [];
       disk := disk (invoke e ActDelete data fs0) |}
  ∧ exit_code (invoke e ActRead rd (disk (invoke e ActDelete data fs0)))
    = 22%Z.
Proof.
  unfold has_id. intros Hid Hrd.
  rewrite (delete_outcome e fs0), Hid.
  destruct (resolve e fs0 (parse_path s)) as [err|k] eqn:Hr.
  - destruct err; try done. intros _. simpl.
    rewrite delete_outcome, read_outcome, Hid, Hrd. unfold os_stat.
    by rewrite Hr.
  - destruct (fs0 !! k) as [[t|]|] eqn:Hk; try done; intros _; simpl.
    + assert (resolve e (delete k fs0) (parse_path s) = inr k) as Hr'
        by (apply resolve_delete_file; [done | by rewrite Hk]).
      rewrite delete_outcome, read_outcome, Hid, Hrd. unfold os_stat.
      by rewrite Hr', lookup_delete_eq.
    + rewrite delete_outcome, read_outcome, Hid, Hrd. unfold os_stat.
      by rewrite Hr, Hk.
Qed.

Lemma delete_then_gone_witness :
  invoke demo_env ActDelete (request_id "f")
    (disk (invoke demo_env ActDelete (request_id "f") demo_fs))
  = {| exit_code := 0; stdout := [];
       disk := disk (invoke demo_env ActDelete (request_id "f") demo_fs) |}
  ∧ exit_code (invoke demo_env ActRead (request_id "f")
      (disk (invoke demo_env ActDelete (request_id "f") demo_fs))) = 22%Z.
Proof.
  apply (delete_then_gone demo_env demo_fs (request_id "f") (request_id "f")
           "f").
  - reflexivity.
  - reflexivity.
  - vm_compute. reflexivity.
Defined.

(** ** Create, at its edges *)

(** X13. A create reads nothing of its request but [input]: two requests
    with the same [input] (or both without) have the same outcome, whatever
    their [id] and other fields. *)
Theorem create_reads_input_only (e : env) (fs0 : gmap (list string) node)
    (kvs kvs' : list (string * json)) :
  assoc "input" kvs = assoc "input" kvs' →
  invoke e ActCreate (JObj kvs) fs0 = invoke e ActCreate (JObj kvs') fs0.
Proof.
  intros Hin. rewrite !create_outcome. unfold content_of. simpl.
  by rewrite Hin.
Qed.

Lemma create_reads_input_only_witness :
  invoke demo_env ActCreate
    (JObj [("id", JStr "/home/f"); ("input", JObj [("content", JStr "x")])])
    demo_fs
  = invoke demo_env ActCreate
      (JObj [("input", JObj [("content", JStr "x")]); ("extra", JNull)])
      demo_fs.
Proof.
  apply (create_reads_input_only demo_env demo_fs
    [("id", JStr "/home/f"); ("input", JObj [("content", JStr "x")])]
    [("input", JObj [("content", JStr "x")]); ("extra", JNull)]).
  reflexivity.
Defined.

Lemma mkstemp_inner_full (e : env) (fs0 : gmap (list string) node)
    (n i0 : nat) :
  env_ok e → dir_at fs0 (tempdir e) = true →
  (∀ i, i0 ≤ i < i0 + n → is_Some (fs0 !! tmp_key e i)) →
  mkstemp_inner e n i0 fs0 = inl FileExistsError.
Proof.
  intros He Hd. revert i0. induction n as [|n IH]; intros i0 Hfull; [done|].
  simpl. unfold os_open_excl.
  rewrite (resolve_candidate_dir e e fs0 i0 He Hd).
  destruct (Hfull i0) as [x ->]; [lia|]. apply IH. intros i Hi.
  apply Hfull. lia.
Qed.

(** X14. When every one of the [TMP_MAX] names a create may try is taken, the
    create gives up: it exits with code 1, prints nothing and leaves the disk
    as it was. *)
Theorem create_no_free_name (e : env) (fs0 : gmap (list string) node)
    (data : json) :
  env_ok e → dir_at fs0 (tempdir e) = true →
  (∀ i, i < TMP_MAX e → is_Some (fs0 !! tmp_key e i)) →
  invoke e ActCreate data fs0 = failed fs0.
Proof.
  intros He Hd Hfull. rewrite create_outcome.
  destruct (content_of data); [done|].
  rewrite mkstemp_inner_full; try done. intros i Hi. apply Hfull. lia.
Qed.

Lemma create_no_free_name_witness :
  invoke demo_env ActCreate (request_content "x") demo_fs_full
  = failed demo_fs_full.
Proof.
  apply (create_no_free_name demo_env demo_fs_full (request_content "x")).
  - apply demo_env_ok.
  - vm_compute. reflexivity.
  - intros [|[|i]] _; vm_compute; eexists; reflexivity.
Defined.

(** ** The [id], spelled differently *)

Lemma filter_keep_no_sep (l : list string) :
  Forall (λ x, has_char sep x = false) l →
  Forall (λ x, has_char sep x = false) (filter (λ x, keep_part x = true) l)
  ∧ forallb keep_part (filter (λ x, keep_part x = true) l) = true.
Proof.
  induction 1 as [|x l Hx Hl [IH1 IH2]]; [done|].
  rewrite filter_cons. case_decide as Hk; [|done].
  split; [by constructor|]. simpl. by rewrite Hk.
Qed.

Lemma splitroot_rooted (r : string) (c : ascii) (t : string) :
  r = "" ∨ r = "/" ∨ r = "//" → c ≠ sep →
  splitroot (r +:+ String c t) = (r, String c t).
Proof.
  intros [->|[->| ->]] Hc; simpl; by rewrite decide_False.
Qed.

Lemma parse_root_tail (r : string) (l : list string) :
  r = "" ∨ r = "/" ∨ r = "//" →
  Forall (λ x, has_char sep x = false) l → forallb keep_part l = true →
  parse_path (py_str {| root := r; tail := l |}) = {| root := r; tail := l |}.
Proof.
  intros Hr Hsep Hkeep. destruct l as [|x l].
  { by destruct Hr as [->|[->| ->]]. }
  assert (∃ c t, join_sep (x :: l) = String c t ∧ c ≠ sep) as (c & t & Hj & Hc).
  { inversion Hsep as [|?? Hx _]; subst. simpl in Hkeep.
    destruct x as [|c x']; [done|]. simpl in Hx.
    destruct (decide (c = sep)); [done|].
    destruct l; simpl; eauto. }
  assert (filter (λ y, keep_part y = true) (split_sep (String c t))
          = x :: l) as Hf.
  { rewrite <- Hj, split_join by done. by apply filter_keep_all. }
  assert (py_str {| root := r; tail := x :: l |} = r +:+ String c t) as ->.
  { unfold py_str. cbn [root tail]. rewrite Hj.
    by destruct Hr as [->|[->| ->]]. }
  unfold parse_path. rewrite splitroot_rooted by done. by rewrite Hf.
Qed.

Lemma parse_path_py_str (s : string) :
  parse_path (py_str (parse_path s)) = parse_path s.
Proof.
  unfold parse_path at 2 3. pose proof (splitroot_root s) as Hr.
  destruct (splitroot s) as [r rel]. simpl in Hr.
  destruct (filter_keep_no_sep _ (split_sep_no_sep rel)) as [Hsep Hkeep].
  by apply parse_root_tail.
Qed.

(** X15. What pathlib writes, it reads back: [Path(str(Path(s)))] is
    [Path(s)] for every string [s], so the [id] of a response names the
    same path as the [id] of its request. *)
Theorem path_str_round_trip (s : string) :
  parse_path (py_str (parse_path s)) = parse_path s
  ∧ py_str (parse_path (py_str (parse_path s))) = py_str (parse_path s).
Proof. by rewrite parse_path_py_str. Qed.

(** X16. The handlers see an [id] only through [Path]: whatever the action,
    a request with the [id] a response has answered ends exactly as the same
    request with the [id] first given. *)
Theorem normalised_id_same_outcome (e : env) (fs0 : gmap (list string) node)
    (a : action) (s : string) (rest : list (string * json)) :
  invoke e a (with_id (JStr (py_str (parse_path s))) rest) fs0
  = invoke e a (with_id (JStr s) rest) fs0.
Proof.
  destruct a.
  - by rewrite !create_outcome.
  - rewrite !read_outcome. simpl. by rewrite parse_path_py_str.
  - rewrite !update_outcome. simpl.
    change (content_of (with_id (JStr (py_str (parse_path s))) rest))
      with (content_of (with_id (JStr s) rest)).
    by rewrite parse_path_py_str.
  - rewrite !delete_outcome. simpl. by rewrite parse_path_py_str.
Qed.

(** ** What a read answers, written back *)

Lemma universal_newlines_no_cr (s : string) :
  has_char CR (universal_newlines s) = false.
Proof.
  induction s as [|a r IH]; simpl; [done|].
  destruct (decide (a = CR)) as [->|Ha].
  - destruct r as [|b r']; [done|]. destruct (decide (b = LF)); [done|].
    simpl. done.
  - simpl. by rewrite decide_False.
Qed.

(** X17. The content a read answers is stable: written back with an update
    of the same [id], it is answered again, unchanged, by the next read. *)
Theorem read_update_read (e : env) (fs0 : gmap (list string) node)
    (s i c : string) :
  stdout (invoke e ActRead (request_id s) fs0) = [response i c] →
  exit_code (invoke e ActUpdate (request_update s c) fs0) = 0%Z
  ∧ stdout (invoke e ActRead (request_id s)
      (disk (invoke e ActUpdate (request_update s c) fs0)))
    = [response i c].
Proof.
  rewrite read_outcome. simpl.
  destruct (os_stat e fs0 (parse_path s)) as [|[t|]] eqn:Hst; try done.
  simpl. intros [= <- <-].
  unfold os_stat in Hst.
  destruct (resolve e fs0 (parse_path s)) as [|k] eqn:Hr; [done|].
  destruct (fs0 !! k) as [n|] eqn:Hk; [|done]. injection Hst as ->.
  destruct (update_resolved e fs0 (request_update s (universal_newlines t)) s
              (universal_newlines t) k) as [-> Hst']; try done;
    try by rewrite Hk.
  simpl. split; [done|]. rewrite read_outcome. simpl. rewrite Hst'. simpl.
  by rewrite universal_newlines_id by apply universal_newlines_no_cr.
Qed.

Lemma read_update_read_witness :
  exit_code (invoke demo_env ActUpdate (request_update "f" "old") demo_fs)
  = 0%Z
  ∧ stdout (invoke demo_env ActRead (request_id "f")
      (disk (invoke demo_env ActUpdate (request_update "f" "old") demo_fs)))
    = [response "f" "old"].
Proof.
  apply (read_update_read demo_env demo_fs "f" "f" "old").
  vm_compute. reflexivity.
Defined.

(** ** Several creates at once: isolation *)

(** The three kinds of system call of a create. *)
Lemma step_cases (e : env) (st st' : stage)
    (fs0 fs1 : gmap (list string) node) :
  step e st fs0 = (st', fs1) →
  (fs1 = fs0
   ∧ (held st' = None ∨ (held st' = held st ∧ kept st' = kept st)))
  ∨ (∃ c j k, st' = Opened c (parse_path (candidate e j)) ∧ held st = None
              ∧ resolve e fs0 (parse_path (candidate e j)) = inr k
              ∧ fs0 !! k = None ∧ fs1 = <[k := File ""]> fs0)
  ∨ (∃ t p k, st = Opened (JStr t) p ∧ st' = Written (JStr t) p
              ∧ resolve e fs0 p = inr k ∧ fs0 !! k ≠ Some Dir
              ∧ fs1 = <[k := File t]> fs0).
Proof.
  destruct st as [c n i|c p|c p|p c|err]; simpl.
  - destruct n as [|n]; [intros [= <- <-]; auto|].
    unfold os_open_excl.
    destruct (resolve e fs0 (parse_path (candidate e i))) as [err|k] eqn:Hr.
    { destruct err; intros [= <- <-]; auto. }
    destruct (fs0 !! k) eqn:Hk; [intros [= <- <-]; auto|].
    destruct (names_entry (parse_path (candidate e i)));
      intros [= <- <-]; [|auto].
    right. left. by exists c, i, k.
  - destruct c as [|b|n|t|l|kvs]; try (intros [= <- <-]; auto).
    destruct (os_write e fs0 p t) as [err|fs'] eqn:Hw;
      intros [= <- <-]; [auto|].
    destruct (os_write_made _ _ _ _ _ Hw) as (k & Hr & Hk & _ & ->).
    right. right. by exists t, p, k.
  - intros [= <- <-]. auto.
  - intros [= <- <-]. auto.
  - intros [= <- <-]. auto.
Qed.

Lemma isolated_start (reqs : list (env * json))
    (fs0 : gmap (list string) node) :
  Forall (λ r, env_ok r.1) reqs → isolated fs0 (start_all reqs, fs0).
Proof.
  intros Hok. pose proof (inv_start reqs fs0 Hok) as Hinv.
  split; [done|]. split; [done|]. simpl.
  intros i e st p Hi Hp. destruct Hinv as (_ & _ & _).
  revert Hi. unfold start_all. rewrite list_lookup_fmap.
  destruct (reqs !! i) as [[e' d]|]; simpl; [|done]. intros [= <- <-].
  unfold start in Hp. destruct (dict_get d "input" (JObj [])); [done|].
  by destruct (dict_get _ "content" (JStr "")).
Qed.

Lemma isolated_step (fs0 : gmap (list string) node) (i : nat)
    (s : list (env * stage) * gmap (list string) node) :
  isolated fs0 s → isolated fs0 (sys_step i s).
Proof.
  intros (Hinv & Hold & Hmine). split; [by apply inv_step|].
  destruct s as [ps fs1]. destruct Hinv as (Hok & Hheld & Hdist).
  unfold sys_step. simpl in *.
  destruct (ps !! i) as [[e st]|] eqn:Hi; [|done].
  destruct (step e st fs1) as [st' fs2] eqn:Hst. simpl.
  pose proof (Hok i e st Hi) as He.
  destruct (step_cases e st st' fs1 fs2 Hst)
    as [[-> Hsame] | [(c & j & k & -> & Hnone & Hr & Hk & ->)
                     | (t & p & k & -> & -> & Hr & Hk & ->)]].
  - (* the disk is as it was *)
    split; [done|].
    intros i' e' st'' p
      [(<- & [= <- <-] & _) | [_ Hi']]%list_lookup_insert_Some Hp; [|eauto].
    destruct Hsame as [Hn | [Hh Hkept]]; [congruence|].
    rewrite Hh in Hp. rewrite Hkept. eauto.
  - (* a new, empty file *)
    pose proof (resolve_candidate e e fs1 j k He Hr) as ->.
    assert (fs0 !! tmp_key e j = None) as Hfresh.
    { destruct (fs0 !! tmp_key e j) eqn:Hf; [|done].
      rewrite <- (Hold (tmp_key e j)), Hk in Hf by by rewrite Hf. done. }
    split.
    + intros k' Hk'. rewrite lookup_insert_ne; [by apply Hold|].
      intros <-. rewrite Hfresh in Hk'. by destruct Hk'.
    + intros i' e' st'' p
        [(<- & [= <- <-] & _) | [Hne Hi']]%list_lookup_insert_Some Hp.
      * injection Hp as <-. exists j. repeat split; try done.
        apply resolve_insert_file; [done | by rewrite Hk].
      * destruct (Hmine i' e' st'' p Hi' Hp) as (j' & -> & Hf' & Hr' & Hc').
        destruct (Hheld i' e' st'' _ Hi' Hp) as (j'' & Heq & Hsome).
        rewrite !parse_candidate in Heq by eauto. injection Heq as Heq.
        exists j'. repeat split; try done.
        { apply resolve_insert_file; [done | by rewrite Hk]. }
        intros c' Hc'c. destruct (Hc' c' Hc'c) as (t & -> & Hlook).
        exists t. split; [done|]. rewrite lookup_insert_ne; [done|].
        intros Hkk.
        replace (tmp_key e' j'') with (tmp_key e j) in Hsome by congruence.
        rewrite Hk in Hsome. by destruct Hsome.
  - (* the content written *)
    destruct (Hmine i e _ p Hi eq_refl) as (j & -> & Hfresh & Hr0 & _).
    rewrite Hr0 in Hr. injection Hr as <-.
    split.
    + intros k' Hk'. rewrite lookup_insert_ne; [by apply Hold|].
      intros <-. rewrite Hfresh in Hk'. by destruct Hk'.
    + intros i' e' st'' p
        [(<- & [= <- <-] & _) | [Hne Hi']]%list_lookup_insert_Some Hp.
      * injection Hp as <-. exists j. repeat split; try done.
        { by apply resolve_insert_file. }
        intros c' [= <-]. exists t. by rewrite lookup_insert_eq.
      * destruct (Hmine i' e' st'' p Hi' Hp) as (j' & -> & Hf' & Hr' & Hc').
        exists j'. repeat split; try done.
        { by apply resolve_insert_file. }
        intros c' Hc'c. destruct (Hc' c' Hc'c) as (t' & -> & Hlook).
        exists t'. split; [done|]. rewrite lookup_insert_ne; [done|].
        intros Hkk.
        apply (Hdist i i' e e' (Opened (JStr t) (parse_path (candidate e j)))
                 st'' (parse_path (candidate e j)));
          [done | done | done | done |].
        rewrite Hp. f_equal. pose proof (Hok i' e' st'' Hi') as He'.
        rewrite !parse_candidate by done. by rewrite Hkk.
Qed.

Lemma isolated_run (fs0 : gmap (list string) node) (sched : list nat)
    (s : list (env * stage) * gmap (list string) node) :
  isolated fs0 s → isolated fs0 (run_schedule sched s).
Proof.
  revert s. induction sched as [|i sched IH]; intros s Hs; [done|].
  simpl. by apply IH, isolated_step.
Qed.

(** X18. Creates running at once do not write into each other's files:
    however their system calls are interleaved, the file named by the [id] a
    process has printed holds the content of that process. *)
Theorem concurrent_creates_keep_content (reqs : list (env * json))
    (fs0 : gmap (list string) node) (sched : list nat) (n : nat) (e : env)
    (st : stage) (i c : string) :
  Forall (λ r, env_ok r.1) reqs →
  (run_schedule sched (start_all reqs, fs0)).1 !! n = Some (e, st) →
  printed st = [response i c] →
  os_stat e (run_schedule sched (start_all reqs, fs0)).2 (parse_path i)
  = inr (File c).
Proof.
  intros Hok Hn (p & -> & <-)%printed_returned.
  destruct (isolated_run fs0 sched _ (isolated_start reqs fs0 Hok))
    as ((Hokk & _) & _ & Hmine).
  destruct (Hmine n e _ p Hn eq_refl) as (j & -> & _ & Hr & Hc).
  destruct (Hc (JStr c) eq_refl) as (t & [= <-] & Hlook).
  rewrite parse_path_py_str. unfold os_stat. by rewrite Hr, Hlook.
Qed.

Lemma concurrent_creates_keep_content_witness :
  os_stat demo_env
    (run_schedule [0; 1; 1; 1; 0; 0; 1] (start_all demo_requests, demo_fs)).2
    (parse_path "/tmp/tmpbbbbbbbb")
  = inr (File "b").
Proof.
  apply (concurrent_creates_keep_content demo_requests demo_fs
           [0; 1; 1; 1; 0; 0; 1] 1 demo_env
           (Returned (parse_path "/tmp/tmpbbbbbbbb") (JStr "b"))
           "/tmp/tmpbbbbbbbb" "b").
  - apply demo_requests_ok.
  - vm_compute. reflexivity.
  - reflexivity.
Defined.

(** X19. Creates running at once leave alone what was there before them:
    however their system calls are interleaved, every path that held
    something at the start holds the same at every moment after. *)
Theorem concurrent_creates_touch_nothing (reqs : list (env * json))
    (fs0 : gmap (list string) node) (sched : list nat) (k : list string) :
  Forall (λ r, env_ok r.1) reqs → is_Some (fs0 !! k) →
  (run_schedule sched (start_all reqs, fs0)).2 !! k = fs0 !! k.
Proof.
  intros Hok Hk.
  destruct (isolated_run fs0 sched _ (isolated_start reqs fs0 Hok))
    as (_ & Hold & _).
  by apply Hold.
Qed.

Lemma concurrent_creates_touch_nothing_witness :
  (run_schedule [0; 1; 1; 1; 0; 0; 1] (start_all demo_requests, demo_fs)).2
    !! ["home"; "f"]
  = demo_fs !! ["home"; "f"].
Proof.
  apply (concurrent_creates_touch_nothing demo_requests demo_fs
           [0; 1; 1; 1; 0; 0; 1] ["home"; "f"]).
  - apply demo_requests_ok.
  - vm_compute. eexists. reflexivity.
Defined.

(** ** Create and update, where they fail or retry *)

Lemma mkstemp_inner_first (e : env) (fs0 : gmap (list string) node)
    (n i0 j : nat) :
  env_ok e → dir_at fs0 (tempdir e) = true →
  i0 ≤ j < i0 + n → fs0 !! tmp_key e j = None →
  (∀ i, i0 ≤ i < j → is_Some (fs0 !! tmp_key e i)) →
  mkstemp_inner e n i0 fs0
  = inr (candidate e j, <[tmp_key e j := File ""]> fs0).
Proof.
  intros He Hd. revert i0. induction n as [|n IH]; intros i0 Hj Hfree Htaken;
    [lia|].
  simpl. unfold os_open_excl.
  rewrite (resolve_candidate_dir e e fs0 i0 He Hd).
  destruct (decide (i0 = j)) as [->|Hne].
  - by rewrite Hfree, names_entry_candidate.
  - destruct (Htaken i0) as [x ->]; [lia|]. apply IH; [lia|done|].
    intros i Hi. apply Htaken. lia.
Qed.

(** X20. A create skips the names that are taken and makes its file under
    the first free one: if the first [j] candidates exist and the next does
    not, the create succeeds, answers that candidate as [id], and the disk
    gains exactly that file, holding the content. *)
Theorem create_takes_first_free (e : env) (fs0 : gmap (list string) node)
    (data : json) (c : string) (j : nat) :
  env_ok e → dir_at fs0 (tempdir e) = true →
  content_of data = inr (JStr c) →
  j < TMP_MAX e → fs0 !! tmp_key e j = None →
  (∀ i, i < j → is_Some (fs0 !! tmp_key e i)) →
  invoke e ActCreate data fs0 =
  {| exit_code := 0; stdout := [response (candidate e j) c];
     disk := <[tmp_key e j := File c]> fs0 |}.
Proof.
  intros He Hd Hc Hj Hfree Htaken. rewrite create_outcome, Hc.
  rewrite (mkstemp_inner_first e fs0 (TMP_MAX e) 0 j); try done; try lia.
  2: { intros i Hi. apply Htaken. lia. }
  destruct (write_resolved e (<[tmp_key e j := File ""]> fs0)
    (parse_path (candidate e j)) (tmp_key e j) c) as (-> & _).
  - apply resolve_insert_file; [|by rewrite Hfree].
    by apply resolve_candidate_dir.
  - by rewrite lookup_insert_eq.
  - by rewrite lookup_insert_eq.
  - rewrite insert_insert_eq, parse_candidate by done. done.
Qed.

Lemma create_takes_first_free_witness :
  invoke demo_env ActCreate (request_content "x")
    (<[ ["tmp"; "tmpaaaaaaaa"] := File "taken" ]> demo_fs) =
  {| exit_code := 0; stdout := [response (candidate demo_env 1) "x"];
     disk := <[tmp_key demo_env 1 := File "x"]>
               (<[ ["tmp"; "tmpaaaaaaaa"] := File "taken" ]> demo_fs) |}.
Proof.
  apply (create_takes_first_free demo_env
           (<[ ["tmp"; "tmpaaaaaaaa"] := File "taken" ]> demo_fs)
           (request_content "x") "x" 1).
  - apply demo_env_ok.
  - vm_compute. reflexivity.
  - reflexivity.
  - apply Nat.ltb_lt. vm_compute. reflexivity.
  - vm_compute. reflexivity.
  - intros [|i] Hi; [vm_compute; eexists; reflexivity | lia].
Defined.

(** X21. A create whose content is not a string fails after its temporary
    file has been made: it exits with code 1 and prints nothing, and an
    empty file is left behind on the disk. *)
Theorem create_bad_content_leaves_file (e : env)
    (fs0 : gmap (list string) node) (data v : json) :
  can_create e fs0 → content_of data = inr v → (∀ c, v ≠ JStr c) →
  ∃ j, fs0 !! tmp_key e j = None
       ∧ invoke e ActCreate data fs0
         = failed (<[tmp_key e j := File ""]> fs0).
Proof.
  intros (He & Hd & i & Hi & Hfree) Hc Hv.
  destruct (mkstemp_inner_free e fs0 (TMP_MAX e) 0 He Hd) as (j & Hj & Hmk).
  { exists i. split; [lia|done]. }
  exists j. split; [done|]. rewrite create_outcome, Hc, Hmk.
  destruct v; try done. by destruct (Hv s).
Qed.

Lemma create_bad_content_leaves_file_witness :
  ∃ j, demo_fs !! tmp_key demo_env j = None
       ∧ invoke demo_env ActCreate
           (JObj [("input", JObj [("content", JNum 5)])]) demo_fs
         = failed (<[tmp_key demo_env j := File ""]> demo_fs).
Proof.
  apply (create_bad_content_leaves_file demo_env demo_fs
           (JObj [("input", JObj [("content", JNum 5)])]) (JNum 5)).
  - apply demo_can_create.
  - reflexivity.
  - discriminate.
Defined.

(** X22. An update makes no directory and replaces none: when the path of
    its [id] goes through something that is missing or is not a directory,
    or names a directory, the update exits with code 1, prints nothing and
    leaves the disk as it was. *)
Theorem update_unreachable_fails (e : env) (fs0 : gmap (list string) node)
    (data : json) (s : string) :
  has_id data s →
  (∃ err, resolve e fs0 (parse_path s) = inl err)
  ∨ os_stat e fs0 (parse_path s) = inr Dir →
  invoke e ActUpdate data fs0 = failed fs0.
Proof.
  unfold has_id. intros Hid Hp. rewrite update_outcome, Hid.
  destruct (content_of data) as [|[]]; try done.
  unfold os_write, os_stat in *.
  destruct Hp as [[err ->] | Hst]; [done|].
  destruct (resolve e fs0 (parse_path s)) as [|k]; [done|].
  by destruct (fs0 !! k) as [[]|].
Qed.

Lemma update_unreachable_fails_witness :
  invoke demo_env ActUpdate (request_update "/nowhere/g" "x") demo_fs
  = failed demo_fs.
Proof.
  apply (update_unreachable_fails demo_env demo_fs
           (request_update "/nowhere/g" "x") "/nowhere/g").
  - reflexivity.
  - left. eexists. vm_compute. reflexivity.
Defined.
